(** * Markdown-to-DOCX line scanners

    A shallow embedding of the two conversion scripts of the repository,
    [convert_md_to_docx.py] (module [MdToDocx]) and [convert_to_word.py]
    (module [ToWord]).  Both read a Markdown file, split it at line feeds
    and walk the lines with a cursor [i], calling the document library
    once for each unit they recognise.  The document is modelled as the
    ordered list of those calls ([command]); how the library renders a
    call is not part of the scripts.  What the scripts' own code can
    raise is: [add_table_to_doc] indexes the cells of a table row by
    position, and that is modelled ([result]). *)

From Stdlib Require Import String Ascii List Arith Bool Lia.
Import ListNotations.
Open Scope string_scope.
Open Scope list_scope.
Open Scope bool_scope.
Open Scope nat_scope.

(** ** Python string operations used by the scripts *)

Module Py.

(** [str.isspace] on one character, for the code points below 256. *)
Definition is_space (c : ascii) : bool :=
  let n := nat_of_ascii c in
  ((9 <=? n) && (n <=? 13)) || ((28 <=? n) && (n <=? 32))
  || (n =? 133) || (n =? 160).

(** [bool(s)]: a string is true when it is not empty. *)
Definition truthy (s : string) : bool :=
  match s with EmptyString => false | String _ _ => true end.

Fixpoint lstrip (s : string) : string :=
  match s with
  | EmptyString => EmptyString
  | String c r => if is_space c then lstrip r else s
  end.

Fixpoint rstrip (s : string) : string :=
  match s with
  | EmptyString => EmptyString
  | String c r =>
      let r' := rstrip r in
      if is_space c && negb (truthy r') then EmptyString else String c r'
  end.

(** [s.strip()] *)
Definition strip (s : string) : string := rstrip (lstrip s).

(** [s.startswith(p)] *)
Fixpoint startswith (p s : string) : bool :=
  match p, s with
  | EmptyString, _ => true
  | String a p', String b s' => Ascii.eqb a b && startswith p' s'
  | String _ _, EmptyString => false
  end.

Fixpoint rev_onto (s acc : string) : string :=
  match s with
  | EmptyString => acc
  | String c r => rev_onto r (String c acc)
  end.

Definition reverse (s : string) : string := rev_onto s EmptyString.

(** [s.endswith(p)] *)
Definition endswith (p s : string) : bool :=
  startswith (reverse p) (reverse s).

(** [c in s] for a one-character string [c]. *)
Fixpoint has_char (c : ascii) (s : string) : bool :=
  match s with
  | EmptyString => false
  | String b r => Ascii.eqb c b || has_char c r
  end.

(** [p in s] for a substring [p]. *)
Fixpoint has_sub (p s : string) : bool :=
  startswith p s ||
  match s with
  | EmptyString => false
  | String _ r => has_sub p r
  end.

(** [s.split(c)] for a one-character separator: never the empty list. *)
Fixpoint split (c : ascii) (s : string) : list string :=
  match s with
  | EmptyString => [EmptyString]
  | String b r =>
      if Ascii.eqb c b then EmptyString :: split c r
      else match split c r with
           | [] => [String b EmptyString]
           | w :: ws => String b w :: ws
           end
  end.

(** [sep.join(l)] *)
Definition join (sep : string) (l : list string) : string :=
  String.concat sep l.

(** [l[1:-1]] *)
Definition inner {A} (l : list A) : list A := removelast (tl l).

(** [s[n:]] *)
Fixpoint drop (n : nat) (s : string) : string :=
  match n, s with
  | O, _ => s
  | S _, EmptyString => EmptyString
  | S m, String _ r => drop m r
  end.

(** [s[:n]] *)
Fixpoint take (n : nat) (s : string) : string :=
  match n, s with
  | O, _ => EmptyString
  | S _, EmptyString => EmptyString
  | S m, String c r => String c (take m r)
  end.

(** [s[2:-2]]: from the third character up to two before the end, empty
    when the string has fewer than five characters. *)
Definition slice_2_m2 (s : string) : string :=
  take (String.length s - 2 - 2) (drop 2 s).

(** [s.replace(p, '')] for a non-empty [p]: a left-to-right scan that
    deletes each match and resumes after it.  [skip] counts the characters
    of the current match still to be deleted. *)
Fixpoint remove_from (p : string) (skip : nat) (s : string) : string :=
  match s with
  | EmptyString => EmptyString
  | String c r =>
      match skip with
      | S k => remove_from p k r
      | O => if startswith p s
             then remove_from p (String.length p - 1) r
             else String c (remove_from p 0 r)
      end
  end.

Definition remove (p s : string) : string := remove_from p 0 s.

(** The line feed, ['\n']. *)
Definition LF : ascii := ascii_of_nat 10.
Definition nl : string := String LF EmptyString.

End Py.

Import Py.

(** ** The calls made on the document *)

(** One call on the document library.  [Heading] is [doc.add_heading],
    [Paragraph] is [doc.add_paragraph(text)] with its runs set bold or
    italic, [Table] is [doc.add_table] followed by the cell assignments,
    [CodeBlock] is the paragraph in style 'Intense Quote', [ListItem] the
    paragraph in style 'List Bullet', [Spacer] the empty
    [doc.add_paragraph()]. *)
Inductive command : Type :=
| Heading (text : string) (level : nat)
| Paragraph (text : string) (bold italic : bool)
| Table (headers : list string) (rows : list (list string))
| CodeBlock (text : string)
| ListItem (text : string)
| Spacer.

(** [[c.strip() for c in s.split('|')[1:-1]]]: the cells of a table line. *)
Definition cells (s : string) : list string :=
  map strip (inner (split "|"%char s)).

(** [any(cell for cell in row)] *)
Definition any_truthy (row : list string) : bool := existsb truthy row.

(** [bool(l)] for a list. *)
Definition nonempty {A} (l : list A) : bool :=
  match l with [] => false | _ :: _ => true end.

(** The outcome of code of the scripts that may raise.  The one exception
    the scripts' own code can raise while scanning is the IndexError of
    [add_table_to_doc] in convert_md_to_docx.py. *)
Inductive result (A : Type) : Type :=
| Ok (a : A)
| IndexError.

Arguments Ok {A} a.
Arguments IndexError {A}.

(** ** convert_md_to_docx.py *)

Module MdToDocx.

(** The [while] loop of [parse_table] over the data rows.  [rest] is
    [lines[idx:]]. *)
Fixpoint parse_rows (rest : list string) (rows : list (list string))
    (idx : nat) : list (list string) * nat :=
  match rest with
  | [] => (rows, idx)
  | l :: rest' =>
      if has_char "|" l then
        let row_line := strip l in
        if negb (truthy row_line) || startswith "#" row_line
        then (rows, idx)
        else
          let row := cells row_line in
          let rows' := if nonempty row && any_truthy row
                       then rows ++ [row] else rows in
          parse_rows rest' rows' (S idx)
      else (rows, idx)
  end.

Definition parse_table (lines : list string) (start_idx : nat)
    : list string * list (list string) * nat :=
  match nth_error lines start_idx with
  | Some l =>
      if has_char "|" l then
        let header_line := strip l in
        let headers := cells header_line in
        let idx := S start_idx in
        let idx :=
          match nth_error lines idx with
          | Some sep => if has_sub "---" sep then S idx else idx
          | None => idx
          end in
        let '(rows, idx) := parse_rows (skipn idx lines) [] idx in
        (headers, rows, idx)
      else ([], [], start_idx)
  | None => ([], [], start_idx)
  end.

(** [add_table_to_doc]: nothing when there are no headers or no rows.
    Otherwise the table is created with [len(headers)] columns and each
    row is written cell by cell into [row_cells], the cells of a new
    table row, one for each column: [row_cells[i]] raises IndexError as
    soon as a row has more cells than there are headers. *)
Definition row_fits (cols : nat) (row : list string) : bool :=
  length row <=? cols.

Definition add_table_to_doc (headers : list string)
    (rows : list (list string)) : result (list command) :=
  if negb (nonempty headers) || negb (nonempty rows) then Ok []
  else if forallb (row_fits (length headers)) rows
       then Ok [Table headers rows]
       else IndexError.

(** One iteration of the [while i < len(lines)] loop of
    [markdown_to_docx] on [line = lines[i]]: the calls made and the next
    value of [i], or the exception raised. *)
Definition classify (lines : list string) (i : nat) (line : string)
    : result (list command * nat) :=
  if negb (truthy (strip line)) then Ok ([], S i)
  else if startswith "# " line
       then Ok ([Heading (strip (drop 2 line)) 1], S i)
  else if startswith "## " line
       then Ok ([Heading (strip (drop 3 line)) 2], S i)
  else if startswith "### " line
       then Ok ([Heading (strip (drop 4 line)) 3], S i)
  else if startswith "#### " line
       then Ok ([Heading (strip (drop 5 line)) 4], S i)
  else if has_char "|" line then
    let '(headers, rows, next_idx) := parse_table lines i in
    if nonempty headers && nonempty rows
    then match add_table_to_doc headers rows with
         | Ok out => Ok (out, next_idx)
         | IndexError => IndexError
         end
    else Ok ([], next_idx)
  else if startswith "**" line then
    Ok ([Paragraph (remove "**" line) true false], S i)
  else if truthy (strip line) && negb (startswith "---" line) then
    let text := remove "_" (remove "`" (remove "**" line)) in
    Ok ((if truthy (strip text) then [Paragraph text false false] else []),
        S i)
  else if startswith "---" line then Ok ([Spacer], S i)
  else Ok ([], S i).

Definition step (lines : list string) (i : nat)
    : result (list command * nat) :=
  match nth_error lines i with
  | Some line => classify lines i line
  | None => Ok ([], i)
  end.

(** The calls a step made on the document when it returned; a step that
    raised leaves no document behind, [markdown_to_docx] never reaches
    [doc.save]. *)
Definition calls (r : result (list command * nat)) : list command :=
  match r with Ok (out, _) => out | IndexError => [] end.

(** The loop itself.  [fuel] bounds the number of iterations; [None] means
    the bound was reached with lines still to scan, [Some IndexError] that
    an iteration raised. *)
Fixpoint scan (fuel : nat) (lines : list string) (i : nat)
    (doc : list command) : option (result (list command)) :=
  if length lines <=? i then Some (Ok doc)
  else match fuel with
       | O => None
       | S fuel' =>
           match step lines i with
           | Ok (out, i') => scan fuel' lines i' (doc ++ out)
           | IndexError => Some IndexError
           end
       end.

(** The number of iterations the loop makes from cursor [i], the one that
    raises included. *)
Fixpoint iterations (fuel : nat) (lines : list string) (i : nat)
    : option nat :=
  if length lines <=? i then Some 0
  else match fuel with
       | O => None
       | S fuel' =>
           match step lines i with
           | Ok (_, i') => option_map S (iterations fuel' lines i')
           | IndexError => Some 1
           end
       end.

Definition title : string := "OneMind AI - Complete Hardcoded Values Audit".

(** [markdown_to_docx] on the text read from the file. *)
Definition markdown_to_docx (content : string)
    : option (result (list command)) :=
  let lines := split LF content in
  scan (length lines) lines 0 [Heading title 0].

End MdToDocx.

(** ** convert_to_word.py *)

Module ToWord.

(** The rows loop of [add_table_from_markdown]: a line contributes a row
    when it is not blank, contains a pipe and has as many cells as the
    header. *)
Fixpoint table_rows (header : list string) (ls : list string)
    : list (list string) :=
  match ls with
  | [] => []
  | line :: ls' =>
      if truthy (strip line) && has_char "|" line then
        let c := cells line in
        if length c =? length header
        then c :: table_rows header ls'
        else table_rows header ls'
      else table_rows header ls'
  end.

Definition add_table_from_markdown (markdown_table : string)
    : list command :=
  let lines := split LF (strip markdown_table) in
  if length lines <? 3 then []
  else
    let header := cells (nth 0 lines "") in
    [Table header (table_rows header (skipn 2 lines))].

(** The inner loop of the code-block branch; [rest] is [lines[i:]]. *)
Fixpoint collect_code (rest : list string) (code_lines : list string)
    (i : nat) : list string * nat :=
  match rest with
  | [] => (code_lines, i)
  | l :: rest' =>
      if negb (startswith "```" l)
      then collect_code rest' (code_lines ++ [l]) (S i)
      else (code_lines, i)
  end.

(** The inner loop of the table branch; [rest] is [lines[i:]]. *)
Fixpoint collect_table (rest : list string) (table_lines : list string)
    (i : nat) : list string * nat :=
  match rest with
  | [] => (table_lines, i)
  | l :: rest' =>
      if startswith "|" (strip l)
      then collect_table rest' (table_lines ++ [l]) (S i)
      else (table_lines, i)
  end.

(** One iteration of the [while i < len(lines)] loop of
    [markdown_to_docx] on [line = lines[i]], the closing [i += 1]
    included: the calls made and the next value of [i]. *)
Definition classify (lines : list string) (i : nat) (line : string)
    : list command * nat :=
  if startswith "# " line then ([Heading (strip (drop 2 line)) 1], S i)
  else if startswith "## " line then ([Heading (strip (drop 3 line)) 2], S i)
  else if startswith "### " line then ([Heading (strip (drop 4 line)) 3], S i)
  else if startswith "#### " line then ([Heading (strip (drop 5 line)) 4], S i)
  else if startswith "```" line then
    let i := S i in
    let '(code_lines, i) := collect_code (skipn i lines) [] i in
    ([CodeBlock (join nl code_lines)], S i)
  else if startswith "|" (strip line) then
    let i := S i in
    let '(table_lines, i) := collect_table (skipn i lines) [line] i in
    let markdown_table := join nl table_lines in
    (add_table_from_markdown markdown_table, S (i - 1))
  else if startswith "**" (strip line) && endswith "**" (strip line) then
    ([Paragraph (slice_2_m2 (strip line)) true false], S i)
  else if startswith "- " (strip line) then
    ([ListItem (drop 2 (strip line))], S i)
  else if truthy (strip line) && negb (startswith "#" line)
          && negb (startswith "|" line) then
    ((if truthy (strip line)
      then [Paragraph (strip line) false false] else []), S i)
  else ([], S i).

Definition step (lines : list string) (i : nat) : list command * nat :=
  match nth_error lines i with
  | Some line => classify lines i line
  | None => ([], i)
  end.

(** The loop itself.  [fuel] bounds the number of iterations; [None] means
    the bound was reached with lines still to scan. *)
Fixpoint scan (fuel : nat) (lines : list string) (i : nat)
    (doc : list command) : option (list command) :=
  if length lines <=? i then Some doc
  else match fuel with
       | O => None
       | S fuel' =>
           let '(out, i') := step lines i in
           scan fuel' lines i' (doc ++ out)
       end.

(** The number of iterations the loop makes from cursor [i]. *)
Fixpoint iterations (fuel : nat) (lines : list string) (i : nat)
    : option nat :=
  if length lines <=? i then Some 0
  else match fuel with
       | O => None
       | S fuel' => option_map S (iterations fuel' lines (snd (step lines i)))
       end.

(** [markdown_to_docx] on the text read from the file. *)
Definition markdown_to_docx (content : string) : option (list command) :=
  let lines := split LF content in
  scan (length lines) lines 0 [].

End ToWord.

(** ** Shapes of lines named by the properties *)

(** [k] copies of one character. *)
Fixpoint repeat_char (c : ascii) (k : nat) : string :=
  match k with
  | O => EmptyString
  | S k' => String c (repeat_char c k')
  end.

Definition hashes (k : nat) : string := repeat_char "#" k.
Definition hyphens (k : nat) : string := repeat_char "-" k.

(** The first character of a string, if any. *)
Definition first_char (s : string) : option ascii :=
  match s with EmptyString => None | String c _ => Some c end.

(** The commands only convert_to_word.py can issue. *)
Definition is_code_block (c : command) : bool :=
  match c with CodeBlock _ => true | _ => false end.

Definition is_list_item (c : command) : bool :=
  match c with ListItem _ => true | _ => false end.

(** A line that does not open or close a code fence. *)
Definition not_fence (l : string) : bool := negb (startswith "```" l).

(** The tests that come before the bold test in the [if]/[elif] chain of
    convert_md_to_docx.py: blank line, the four headings, table. *)
Definition md_before_bold (line : string) : bool :=
  negb (truthy (strip line))
  || startswith "# " line || startswith "## " line
  || startswith "### " line || startswith "#### " line
  || has_char "|" line.

(** All the tests of convert_md_to_docx.py other than the paragraph one;
    a line starting with three hyphens is kept out of the paragraph branch
    by that branch's own condition. *)
Definition md_before_paragraph (line : string) : bool :=
  md_before_bold line || startswith "**" line || startswith "---" line.

(** The tests that come before the paragraph test in the chain of
    convert_to_word.py: headings, code fence, table, bold, list. *)
Definition tw_before_paragraph (line : string) : bool :=
  startswith "# " line || startswith "## " line
  || startswith "### " line || startswith "#### " line
  || startswith "```" line
  || startswith "|" (strip line)
  || (startswith "**" (strip line) && endswith "**" (strip line))
  || startswith "- " (strip line).

(** The text convert_md_to_docx.py gives a regular paragraph:
    [line.replace('**', '').replace('`', '').replace('_', '')]. *)
Definition md_clean (line : string) : string :=
  remove "_" (remove "`" (remove "**" line)).

(** *** Table fragments *)

(** A line whose trimmed form starts with a pipe: the test of
    convert_to_word.py for a table line. *)
Definition pipe_line (l : string) : bool := startswith "|" (strip l).

(** A data line that has a non-empty cell after trimming. *)
Definition qualifying (d : string) : bool := any_truthy (cells d).

(** A data line with as many cells as the header line [h]. *)
Definition same_width (h d : string) : bool :=
  length (cells d) =? length (cells h).

(** One of the four heading prefixes. *)
Definition heading_prefix (line : string) : bool :=
  startswith "# " line || startswith "## " line
  || startswith "### " line || startswith "#### " line.

(** A line on which convert_md_to_docx.py enters its table branch. *)
Definition md_table_header (h : string) : bool :=
  has_char "|" h && negb (heading_prefix h).

(** A line the rows loop of [parse_table] consumes. *)
Definition md_data_line (d : string) : bool :=
  has_char "|" d && negb (startswith "#" (strip d)).

(** The line after the header of a fragment: [sepl] is the separator
    taken by [parse_table], when there is one, and [rest] what follows. *)
Definition md_separator (sepl rest : list string) : bool :=
  match sepl with
  | [] => match rest with [] => true | x :: _ => negb (has_sub "---" x) end
  | [sep] => has_sub "---" sep
  | _ :: _ :: _ => false
  end.


(** A data line with at most as many cells as the header line [h]. *)
Definition not_wider (h d : string) : bool :=
  length (cells d) <=? length (cells h).

(** What follows a fragment does not continue it. *)
Definition ends_with (continues : string -> bool) (post : list string)
    : bool :=
  match post with [] => true | p :: _ => negb (continues p) end.

(** The number of occurrences of a character. *)
Fixpoint count_char (c : ascii) (s : string) : nat :=
  match s with
  | EmptyString => 0
  | String b r => (if Ascii.eqb c b then 1 else 0) + count_char c r
  end.

(** A line holds no line feed, as every line of [content.split('\n')]. *)
Definition no_lf (l : string) : bool := negb (has_char LF l).

(** Apply [f] to the last element of a list: what trimming the right end
    of a joined text does to its lines. *)
Fixpoint map_last {A} (f : A -> A) (l : list A) : list A :=
  match l with
  | [] => []
  | [x] => [f x]
  | x :: r => x :: map_last f r
  end.

(** * Facts about the string operations *)

Section StringFacts.

Lemma strip_nonspace (c : ascii) (r : string) :
  is_space c = false -> strip (String c r) = String c (rstrip r).
Proof.
  intros Hc. unfold strip. simpl. rewrite Hc. simpl. now rewrite Hc.
Qed.

Lemma startswith_first_char (a : ascii) (p s : string) :
  startswith (String a p) s = true -> first_char s = Some a.
Proof.
  destruct s as [|b s]; simpl; [discriminate|].
  intros H. apply andb_true_iff in H as [H _].
  apply Ascii.eqb_eq in H. now subst.
Qed.

Lemma first_char_strip (c : ascii) (s : string) :
  first_char s = Some c -> is_space c = false ->
  first_char (strip s) = Some c.
Proof.
  destruct s as [|b r]; simpl; [discriminate|].
  intros [= ->] Hc. now rewrite strip_nonspace.
Qed.

Lemma first_char_startswith_false (a c : ascii) (p s : string) :
  first_char s = Some c -> a <> c -> startswith (String a p) s = false.
Proof.
  destruct s as [|b r]; simpl; [discriminate|].
  intros [= ->] Hne. apply Ascii.eqb_neq in Hne. now rewrite Hne.
Qed.

Lemma truthy_first_char (s : string) (c : ascii) :
  first_char s = Some c -> truthy s = true.
Proof. destruct s; simpl; [discriminate|reflexivity]. Qed.

End StringFacts.

(** * Headings *)

(** C2. A line made of one to four '#' characters, a space and any
    remainder makes either scanner emit exactly one [Heading] whose level
    is the number of '#' characters and whose text is the remainder with
    surrounding whitespace removed, and moves the cursor one line on. *)
Theorem heading_lines (lines : list string) (i k : nat) (rest : string) :
  1 <= k <= 4 ->
  nth_error lines i = Some (hashes k ++ String " " rest)%string ->
  MdToDocx.step lines i = Ok ([Heading (strip rest) k], S i) /\
  ToWord.step lines i = ([Heading (strip rest) k], S i).
Proof.
  intros Hk Hline.
  unfold MdToDocx.step, ToWord.step. rewrite Hline.
  unfold MdToDocx.classify, ToWord.classify.
  destruct k as [|[|[|[|[|k]]]]]; try lia;
    cbn [hashes repeat_char String.append];
    rewrite strip_nonspace by reflexivity;
    cbn [truthy negb startswith Ascii.eqb Bool.eqb andb drop];
    split; reflexivity.
Qed.

Lemma heading_lines_witness :
  MdToDocx.step ["intro"; "## Section Two"] 1
    = Ok ([Heading "Section Two" 2], 2) /\
  ToWord.step ["intro"; "## Section Two"] 1
    = ([Heading "Section Two" 2], 2).
Proof.
  apply (heading_lines ["intro"; "## Section Two"] 1 2 "Section Two").
  - lia.
  - reflexivity.
Defined.

(** * Progress of the cursor and termination *)

Section Progress.

Lemma md_parse_rows_ge (rest : list string) :
  forall rows idx, idx <= snd (MdToDocx.parse_rows rest rows idx).
Proof.
  induction rest as [|l rest IH]; intros rows idx;
    cbn [MdToDocx.parse_rows snd]; [lia|].
  destruct (has_char "|" l); cbn [snd]; [|lia].
  destruct (negb (truthy (strip l)) || startswith "#" (strip l));
    cbn [snd]; [lia|].
  etransitivity; [|apply IH]. lia.
Qed.

Lemma md_parse_table_gt (lines : list string) (i : nat) (line : string) :
  nth_error lines i = Some line -> has_char "|" line = true ->
  i < snd (MdToDocx.parse_table lines i).
Proof.
  intros Hl Hp. unfold MdToDocx.parse_table. rewrite Hl, Hp.
  match goal with
  | |- context [MdToDocx.parse_rows ?r ?a ?j] =>
      pose proof (md_parse_rows_ge r a j) as Hge;
      destruct (MdToDocx.parse_rows r a j) as [rows idx]
  end.
  cbn [snd] in *.
  destruct (nth_error lines (S i)) as [sep|]; [destruct (has_sub "---" sep)|];
    lia.
Qed.

Lemma md_step_advances (lines : list string) (i : nat)
    (out : list command) (n : nat) :
  i < length lines -> MdToDocx.step lines i = Ok (out, n) -> i < n.
Proof.
  intros Hi. unfold MdToDocx.step.
  destruct (nth_error lines i) as [line|] eqn:Hl.
  2:{ apply nth_error_None in Hl. lia. }
  unfold MdToDocx.classify.
  destruct (has_char "|" line) eqn:Hp.
  - pose proof (md_parse_table_gt lines i line Hl Hp) as Hgt.
    destruct (MdToDocx.parse_table lines i) as [[h r] m].
    cbn [snd] in Hgt.
    repeat match goal with
           | |- (if ?b then _ else _) = _ -> _ => destruct b
           | |- match ?x with Ok _ => _ | IndexError => _ end = _ -> _ =>
               destruct x
           end; intros [= <- <-]; lia.
  - repeat match goal with
           | |- (if ?b then _ else _) = _ -> _ => destruct b
           end; intros [= <- <-]; lia.
Qed.

Lemma tw_collect_code_ge (rest : list string) :
  forall acc i, i <= snd (ToWord.collect_code rest acc i).
Proof.
  induction rest as [|l rest IH]; intros acc i;
    cbn [ToWord.collect_code snd]; [lia|].
  destruct (negb (startswith "```" l)); cbn [snd]; [|lia].
  etransitivity; [|apply IH]. lia.
Qed.

Lemma tw_collect_table_ge (rest : list string) :
  forall acc i, i <= snd (ToWord.collect_table rest acc i).
Proof.
  induction rest as [|l rest IH]; intros acc i;
    cbn [ToWord.collect_table snd]; [lia|].
  destruct (startswith "|" (strip l)); cbn [snd]; [|lia].
  etransitivity; [|apply IH]. lia.
Qed.

Lemma tw_step_advances (lines : list string) (i : nat) :
  i < length lines -> i < snd (ToWord.step lines i).
Proof.
  intros Hi. unfold ToWord.step.
  destruct (nth_error lines i) as [line|] eqn:Hl.
  2:{ apply nth_error_None in Hl. lia. }
  unfold ToWord.classify.
  repeat match goal with
         | |- _ < snd (_, _) => cbn [snd]; lia
         | |- _ < snd (if ?b then _ else _) => destruct b
         end.
  - pose proof (tw_collect_code_ge (skipn (S i) lines) [] (S i)) as Hge.
    destruct (ToWord.collect_code _ _ _) as [c j]. cbn [snd] in *. lia.
  - pose proof (tw_collect_table_ge (skipn (S i) lines) [line] (S i)) as Hge.
    destruct (ToWord.collect_table _ _ _) as [c j]. cbn [snd] in *. lia.
Qed.

(** A loop whose step moves the cursor forward ends within
    [length lines - i] iterations. *)
Lemma md_scan_total (lines : list string) :
  forall fuel i doc, length lines - i <= fuel ->
  exists r, MdToDocx.scan fuel lines i doc = Some r.
Proof.
  induction fuel as [|fuel IH]; intros i doc Hf; cbn [MdToDocx.scan].
  - destruct (Nat.leb_spec (length lines) i); [eauto|lia].
  - destruct (Nat.leb_spec (length lines) i) as [|Hi]; [eauto|].
    destruct (MdToDocx.step lines i) as [[out i']|] eqn:E; [|eauto].
    pose proof (md_step_advances lines i out i' Hi E) as Hadv.
    apply IH. lia.
Qed.

Lemma md_iterations_bound (lines : list string) :
  forall fuel i, length lines - i <= fuel ->
  exists n, MdToDocx.iterations fuel lines i = Some n /\ n <= length lines - i.
Proof.
  induction fuel as [|fuel IH]; intros i Hf; cbn [MdToDocx.iterations].
  - destruct (Nat.leb_spec (length lines) i); [|lia]. exists 0. split; [easy|lia].
  - destruct (Nat.leb_spec (length lines) i) as [|Hi].
    { exists 0. split; [easy|lia]. }
    destruct (MdToDocx.step lines i) as [[out i']|] eqn:E.
    + pose proof (md_step_advances lines i out i' Hi E) as Hadv.
      destruct (IH i') as (n & Hn & Hle); [lia|].
      rewrite Hn. exists (S n). split; [easy|lia].
    + exists 1. split; [easy|lia].
Qed.

Lemma tw_scan_total (lines : list string) :
  forall fuel i doc, length lines - i <= fuel ->
  exists doc', ToWord.scan fuel lines i doc = Some doc'.
Proof.
  induction fuel as [|fuel IH]; intros i doc Hf; simpl.
  - destruct (Nat.leb_spec (length lines) i); [eauto|lia].
  - destruct (Nat.leb_spec (length lines) i) as [|Hi]; [eauto|].
    pose proof (tw_step_advances lines i Hi) as Hadv.
    destruct (ToWord.step lines i) as [out i']. cbn [snd] in Hadv.
    apply IH. lia.
Qed.

Lemma tw_iterations_bound (lines : list string) :
  forall fuel i, length lines - i <= fuel ->
  exists n, ToWord.iterations fuel lines i = Some n /\ n <= length lines - i.
Proof.
  induction fuel as [|fuel IH]; intros i Hf; simpl.
  - destruct (Nat.leb_spec (length lines) i); [|lia]. exists 0. split; [easy|lia].
  - destruct (Nat.leb_spec (length lines) i) as [|Hi].
    { exists 0. split; [easy|lia]. }
    pose proof (tw_step_advances lines i Hi) as Hadv.
    destruct (IH (snd (ToWord.step lines i))) as (n & Hn & Hle); [lia|].
    rewrite Hn. exists (S n). split; [easy|lia].
Qed.

End Progress.

(** C10. On every list of lines both scanners terminate: each iteration
    of the main loop that returns moves the cursor strictly forward, the
    table and code-block lookahead included, so the loop started at the
    first line with [length lines] iterations allowed comes to an end (in
    convert_md_to_docx.py by returning a document or by raising) and makes
    at most [length lines] iterations. *)
Theorem scan_terminates (lines : list string) (doc : list command) :
  (forall i, i < length lines ->
     (forall out n, MdToDocx.step lines i = Ok (out, n) -> i < n) /\
     i < snd (ToWord.step lines i)) /\
  (exists r n, MdToDocx.scan (length lines) lines 0 doc = Some r /\
               MdToDocx.iterations (length lines) lines 0 = Some n /\
               n <= length lines) /\
  (exists d n, ToWord.scan (length lines) lines 0 doc = Some d /\
               ToWord.iterations (length lines) lines 0 = Some n /\
               n <= length lines).
Proof.
  split; [|split].
  - intros i Hi. split.
    + intros out n. now apply md_step_advances.
    + now apply tw_step_advances.
  - destruct (md_scan_total lines (length lines) 0 doc) as [d Hd]; [lia|].
    destruct (md_iterations_bound lines (length lines) 0) as (n & Hn & Hle); [lia|].
    exists d, n. repeat split; auto. lia.
  - destruct (tw_scan_total lines (length lines) 0 doc) as [d Hd]; [lia|].
    destruct (tw_iterations_bound lines (length lines) 0) as (n & Hn & Hle); [lia|].
    exists d, n. repeat split; auto. lia.
Qed.

Lemma scan_terminates_witness :
  1 < 3 /\
  1 < snd (ToWord.step ["# a"; "| x |"; "|---|"; "text"] 1).
Proof.
  destruct (scan_terminates ["# a"; "| x |"; "|---|"; "text"] [])
    as [Hadv _].
  destruct (Hadv 1) as [Hmd Htw]; [cbn [length]; lia|].
  split; [apply (Hmd [] 3); reflexivity|exact Htw].
Defined.

(** * Horizontal rules *)

Section Rules.

Lemma has_char_repeat (c d : ascii) (n : nat) :
  c <> d -> has_char c (repeat_char d n) = false.
Proof.
  intros Hne. apply Ascii.eqb_neq in Hne.
  induction n as [|n IH]; cbn [repeat_char has_char]; [reflexivity|].
  now rewrite Hne, IH.
Qed.

Lemma rstrip_repeat (d : ascii) (n : nat) :
  is_space d = false -> rstrip (repeat_char d n) = repeat_char d n.
Proof.
  intros Hd. induction n as [|n IH]; cbn [repeat_char rstrip]; [reflexivity|].
  now rewrite Hd, IH.
Qed.

Lemma strip_repeat (d : ascii) (n : nat) :
  is_space d = false -> strip (repeat_char d n) = repeat_char d n.
Proof.
  intros Hd. destruct n as [|n]; [reflexivity|].
  cbn [repeat_char]. rewrite strip_nonspace by exact Hd.
  now rewrite rstrip_repeat.
Qed.

End Rules.

(** C6, as amended.  A line of three or more hyphens and nothing else
    makes the scanner of convert_md_to_docx.py emit exactly one [Spacer]
    and move one line on; the scanner of convert_to_word.py has no rule
    for horizontal rules and emits the line as an ordinary paragraph,
    also moving one line on. *)
Theorem hyphen_lines (lines : list string) (i n : nat) :
  3 <= n ->
  nth_error lines i = Some (hyphens n) ->
  MdToDocx.step lines i = Ok ([Spacer], S i) /\
  ToWord.step lines i = ([Paragraph (hyphens n) false false], S i).
Proof.
  intros Hn Hline.
  unfold MdToDocx.step, ToWord.step. rewrite Hline.
  unfold MdToDocx.classify, ToWord.classify, hyphens.
  rewrite strip_repeat by reflexivity.
  rewrite has_char_repeat by discriminate.
  destruct n as [|[|[|n]]]; try lia.
  cbn [repeat_char truthy negb startswith Ascii.eqb Bool.eqb andb endswith].
  split; reflexivity.
Qed.

Lemma hyphen_lines_witness :
  MdToDocx.step ["above"; "----"; "below"] 1 = Ok ([Spacer], 2) /\
  ToWord.step ["above"; "----"; "below"] 1
    = ([Paragraph "----" false false], 2).
Proof.
  apply (hyphen_lines ["above"; "----"; "below"] 1 4).
  - lia.
  - reflexivity.
Defined.

(** C6 as stated fails for convert_to_word.py: the line [---] yields a
    paragraph holding the three hyphens, not a [Spacer]. *)
Lemma hyphen_line_to_word_paragraph :
  ToWord.step ["---"] 0 = ([Paragraph "---" false false], 1) /\
  ToWord.step ["---"] 0 <> ([Spacer], 1).
Proof. split; [reflexivity|discriminate]. Qed.

(** * Fenced code blocks *)

Section CodeBlocks.

Lemma nth_error_middle {A} (pre : list A) (x : A) (post : list A) :
  nth_error (pre ++ x :: post) (length pre) = Some x.
Proof. induction pre as [|a pre IH]; [reflexivity|exact IH]. Qed.

Lemma skipn_middle {A} (pre : list A) (x : A) (post : list A) :
  skipn (S (length pre)) (pre ++ x :: post) = post.
Proof. induction pre as [|a pre IH]; [reflexivity|exact IH]. Qed.

Lemma tw_collect_code_run (body tail : list string) :
  forallb not_fence body = true ->
  match tail with [] => true | close :: _ => startswith "```" close end = true ->
  forall acc i,
    ToWord.collect_code (body ++ tail) acc i = (acc ++ body, i + length body).
Proof.
  intros Hbody Htail.
  induction body as [|l body IH]; intros acc i.
  - rewrite app_nil_r, Nat.add_0_r. cbn [app].
    destruct tail as [|close tail]; cbn [ToWord.collect_code]; [reflexivity|].
    now rewrite Htail.
  - cbn [forallb] in Hbody. apply andb_true_iff in Hbody as [Hl Hbody].
    cbn [app ToWord.collect_code]. unfold not_fence in Hl. rewrite Hl.
    rewrite IH by exact Hbody. rewrite <- app_assoc. cbn [app length].
    f_equal. lia.
Qed.

(** convert_md_to_docx.py never calls the code-block or the list-bullet
    style: whatever the line, its step issues neither command. *)
Lemma md_step_no_code_no_list (lines : list string) (i : nat) :
  existsb (fun c => is_code_block c || is_list_item c)
          (MdToDocx.calls (MdToDocx.step lines i)) = false.
Proof.
  unfold MdToDocx.step.
  destruct (nth_error lines i) as [line|]; [|reflexivity].
  unfold MdToDocx.classify, MdToDocx.add_table_to_doc.
  repeat match goal with
         | |- context [MdToDocx.parse_table ?l ?j] =>
             destruct (MdToDocx.parse_table l j) as [[h r] n]
         | |- context [if ?b then _ else _] => destruct b
         end; reflexivity.
Qed.

End CodeBlocks.

(** C3, as amended.  In convert_to_word.py a line that begins with three
    backticks, followed by [body] lines none of which begins with three
    backticks and then by a closing fence line or the end of the input,
    yields exactly one [CodeBlock] whose text is the [body] lines, blank
    ones included, joined by line feeds, both fence lines left out; the
    cursor ends just past the closing fence (one past the end of the
    input when the fence is not closed).  convert_md_to_docx.py has no
    code-block rule and never issues a [CodeBlock]. *)
Theorem fenced_code_blocks (pre : list string) (opening : string)
    (body tail : list string) :
  startswith "```" opening = true ->
  forallb not_fence body = true ->
  match tail with [] => true | close :: _ => startswith "```" close end = true ->
  ToWord.step (pre ++ opening :: body ++ tail) (length pre)
    = ([CodeBlock (join nl body)], length pre + length body + 2) /\
  (forall lines i,
     existsb is_code_block (MdToDocx.calls (MdToDocx.step lines i)) = false).
Proof.
  intros Hopen Hbody Htail. split.
  - unfold ToWord.step. rewrite nth_error_middle.
    unfold ToWord.classify.
    pose proof (startswith_first_char _ _ _ Hopen) as Hfc.
    rewrite !(first_char_startswith_false "#" "`" _ opening Hfc)
      by discriminate.
    rewrite Hopen, skipn_middle.
    rewrite (tw_collect_code_run body tail Hbody Htail).
    cbn [app]. do 2 f_equal. lia.
  - intros lines i.
    pose proof (md_step_no_code_no_list lines i) as H.
    induction (MdToDocx.calls (MdToDocx.step lines i)) as [|c l IH]; [reflexivity|].
    cbn [existsb] in *. apply orb_false_iff in H as [H1 H2].
    apply orb_false_iff in H1 as [H1 _]. now rewrite H1, IH.
Qed.

Lemma fenced_code_blocks_witness :
  ToWord.step ["text"; "```python"; "a = 1"; ""; "b = 2"; "```"; "after"] 1
    = ([CodeBlock (join nl ["a = 1"; ""; "b = 2"])], 6) /\
  (forall lines i,
     existsb is_code_block (MdToDocx.calls (MdToDocx.step lines i)) = false).
Proof.
  apply (fenced_code_blocks ["text"] "```python" ["a = 1"; ""; "b = 2"]
           ["```"; "after"]); reflexivity.
Defined.

(** C3 as stated fails for convert_md_to_docx.py: on a fenced block the
    opening fence yields nothing and moves one line on, and the whole scan
    emits the interior line as an ordinary paragraph. *)
Lemma fence_md_to_docx_no_code_block :
  MdToDocx.step ["```"; "x = 1"; "```"] 0 = Ok ([], 1) /\
  MdToDocx.scan 3 ["```"; "x = 1"; "```"] 0 []
    = Some (Ok [Paragraph "x = 1" false false]).
Proof. split; reflexivity. Qed.

(** * Lists, bold lines and regular paragraphs *)

Section LineRules.

(** A line whose trimmed form starts with [c] cannot itself start with
    another non-blank character [a]. *)
Lemma strip_first_char_excludes (a c : ascii) (p line : string) :
  first_char (strip line) = Some c -> a <> c -> is_space a = false ->
  startswith (String a p) line = false.
Proof.
  intros Hc Hne Ha.
  destruct (startswith (String a p) line) eqn:Hs; [|reflexivity].
  apply startswith_first_char in Hs.
  apply (first_char_strip _ _ Hs) in Ha. congruence.
Qed.

Lemma existsb_orb_false {A} (f g : A -> bool) (l : list A) :
  existsb (fun x => f x || g x) l = false ->
  existsb f l = false /\ existsb g l = false.
Proof.
  induction l as [|x l IH]; cbn [existsb]; [easy|].
  intros H. apply orb_false_iff in H as [H1 H2].
  apply orb_false_iff in H1 as [Hf Hg].
  destruct (IH H2) as [IHf IHg]. now rewrite Hf, Hg, IHf, IHg.
Qed.

Lemma startswith_dash_space (line : string) :
  startswith "- " line = true ->
  exists r, line = String "-" (String " " r).
Proof.
  destruct line as [|a [|b r]]; cbn [startswith]; try discriminate.
  - rewrite andb_false_r. discriminate.
  - intros H. apply andb_true_iff in H as [Ha Hb].
    apply andb_true_iff in Hb as [Hb _].
    apply Ascii.eqb_eq in Ha, Hb. subst a b. now exists r.
Qed.

Lemma first_char_startswith1 (c : ascii) (s : string) :
  first_char s = Some c -> startswith (String c EmptyString) s = true.
Proof.
  destruct s as [|b r]; cbn [first_char startswith]; [discriminate|].
  intros [= ->]. now rewrite Ascii.eqb_refl.
Qed.

End LineRules.

(** C8, as amended.  In convert_to_word.py a line whose trimmed form
    starts with a hyphen and a space yields exactly one [ListItem] whose
    text is the trimmed line after those two characters, and the cursor
    moves one line on.  convert_md_to_docx.py has no list rule and never
    issues a [ListItem]; there a line that starts with a hyphen and a
    space and holds no pipe yields one plain paragraph, its text the line
    cleaned of emphasis marks with the hyphen and the space still in
    front, and the cursor moves one line on. *)
Theorem list_bullets (lines : list string) (i : nat) (line : string) :
  nth_error lines i = Some line ->
  (startswith "- " (strip line) = true ->
   ToWord.step lines i = ([ListItem (drop 2 (strip line))], S i)) /\
  (startswith "- " line = true ->
   has_char "|" line = false ->
   MdToDocx.step lines i = Ok ([Paragraph (md_clean line) false false], S i) /\
   startswith "- " (md_clean line) = true) /\
  (forall ls j,
     existsb is_list_item (MdToDocx.calls (MdToDocx.step ls j)) = false).
Proof.
  intros Hline. split; [|split].
  - intros Hdash.
    unfold ToWord.step. rewrite Hline. unfold ToWord.classify.
    pose proof (startswith_first_char _ _ _ Hdash) as Hfc.
    rewrite !(strip_first_char_excludes "#" "-" _ line Hfc)
      by (discriminate || reflexivity).
    rewrite (strip_first_char_excludes "`" "-" _ line Hfc)
      by (discriminate || reflexivity).
    rewrite (first_char_startswith_false "|" "-" _ _ Hfc) by discriminate.
    rewrite (first_char_startswith_false "*" "-" _ _ Hfc) by discriminate.
    now rewrite Hdash.
  - intros Hdash Hpipe.
    assert (Hclean : startswith "- " (md_clean line) = true).
    { destruct (startswith_dash_space line Hdash) as [r ->]. reflexivity. }
    split; [|exact Hclean].
    unfold MdToDocx.step. rewrite Hline. unfold MdToDocx.classify.
    pose proof (startswith_first_char _ _ _ Hdash) as Hfc.
    pose proof (first_char_strip _ _ Hfc eq_refl) as Hfs.
    rewrite (truthy_first_char _ _ Hfs).
    rewrite !(first_char_startswith_false "#" "-" _ _ Hfc) by discriminate.
    rewrite (first_char_startswith_false "*" "-" _ _ Hfc) by discriminate.
    rewrite Hpipe.
    assert (Hrule : startswith "---" line = false).
    { destruct (startswith_dash_space line Hdash) as [r ->]. reflexivity. }
    rewrite Hrule. cbn [negb andb].
    fold (md_clean line).
    pose proof (startswith_first_char _ _ _ Hclean) as Hcf.
    now rewrite (truthy_first_char _ _ (first_char_strip _ _ Hcf eq_refl)).
  - intros ls j.
    apply (existsb_orb_false is_code_block is_list_item).
    apply md_step_no_code_no_list.
Qed.

Lemma list_bullets_witness :
  ToWord.step ["- item one"] 0 = ([ListItem "item one"], 1) /\
  MdToDocx.step ["- item `one`"] 0
    = Ok ([Paragraph "- item one" false false], 1).
Proof.
  split.
  - apply (list_bullets ["- item one"] 0 "- item one"); reflexivity.
  - apply (list_bullets ["- item `one`"] 0 "- item `one`"); reflexivity.
Defined.

(** C8 as stated fails in both scripts: convert_md_to_docx.py emits
    [- item one] as a paragraph that keeps the marker, and in
    convert_to_word.py a line made of the marker alone trims to a single
    hyphen and is emitted as a paragraph. *)
Lemma bullet_lines_not_list_items :
  MdToDocx.step ["- item one"] 0
    = Ok ([Paragraph "- item one" false false], 1) /\
  ToWord.step ["- "] 0 = ([Paragraph "-" false false], 1).
Proof. split; reflexivity. Qed.

(** C7, as amended.  In convert_to_word.py a line whose trimmed form both
    starts and ends with two asterisks yields exactly one bold paragraph
    whose text is the trimmed line without its first two and last two
    characters.  In convert_md_to_docx.py the test is on the line as it
    stands: a line that itself starts with two asterisks and holds no
    pipe yields exactly one bold paragraph whose text is the line with
    every pair of asterisks deleted, and a line that does not itself
    start with two asterisks, an indented one for instance, never yields
    a bold paragraph.  Both move the cursor one line on. *)
Theorem bold_lines (lines : list string) (i : nat) (line : string) :
  nth_error lines i = Some line ->
  (startswith "**" (strip line) = true ->
   endswith "**" (strip line) = true ->
   ToWord.step lines i
     = ([Paragraph (slice_2_m2 (strip line)) true false], S i)) /\
  (startswith "**" line = true ->
   has_char "|" line = false ->
   MdToDocx.step lines i
     = Ok ([Paragraph (remove "**" line) true false], S i)) /\
  (startswith "**" line = false ->
   forall text italic,
     ~ In (Paragraph text true italic) (MdToDocx.calls (MdToDocx.step lines i))).
Proof.
  intros Hline. split; [|split].
  - intros Hstart Hend.
    unfold ToWord.step. rewrite Hline. unfold ToWord.classify.
    pose proof (startswith_first_char _ _ _ Hstart) as Hfc.
    rewrite !(strip_first_char_excludes "#" "*" _ line Hfc)
      by (discriminate || reflexivity).
    rewrite (strip_first_char_excludes "`" "*" _ line Hfc)
      by (discriminate || reflexivity).
    rewrite (first_char_startswith_false "|" "*" _ _ Hfc) by discriminate.
    now rewrite Hstart, Hend.
  - intros Hstart Hpipe.
    unfold MdToDocx.step. rewrite Hline. unfold MdToDocx.classify.
    pose proof (startswith_first_char _ _ _ Hstart) as Hfc.
    pose proof (first_char_strip _ _ Hfc eq_refl) as Hfs.
    rewrite (truthy_first_char _ _ Hfs).
    rewrite !(first_char_startswith_false "#" "*" _ _ Hfc) by discriminate.
    now rewrite Hpipe, Hstart.
  - intros Hplain text italic.
    unfold MdToDocx.step. rewrite Hline.
    unfold MdToDocx.classify, MdToDocx.add_table_to_doc. rewrite Hplain.
    repeat match goal with
           | |- context [MdToDocx.parse_table ?l ?j] =>
               destruct (MdToDocx.parse_table l j) as [[h r] n]
           | |- context [if ?b then _ else _] => destruct b
           end;
      cbn [MdToDocx.calls In]; intros H;
      repeat match type of H with _ \/ _ => destruct H as [H|H] end;
      try contradiction; discriminate.
Qed.

Lemma bold_lines_witness :
  ToWord.step ["  **Important**  "] 0
    = ([Paragraph "Important" true false], 1) /\
  ToWord.step ["**Important**"] 0
    = ([Paragraph "Important" true false], 1) /\
  MdToDocx.step ["**Important**"] 0
    = Ok ([Paragraph "Important" true false], 1) /\
  (forall text italic,
     ~ In (Paragraph text true italic)
          (MdToDocx.calls (MdToDocx.step ["  **Important**"] 0))).
Proof.
  split; [|split; [|split]].
  - apply (bold_lines ["  **Important**  "] 0 "  **Important**  ");
      reflexivity.
  - apply (bold_lines ["**Important**"] 0 "**Important**"); reflexivity.
  - apply (bold_lines ["**Important**"] 0 "**Important**"); reflexivity.
  - apply (bold_lines ["  **Important**"] 0 "  **Important**");
      reflexivity.
Defined.

(** C7 as stated fails for convert_md_to_docx.py: a line whose trimmed
    form is wholly bold but which is indented does not start with the
    asterisks, reaches the regular-paragraph branch and comes out not
    bold, keeping its indentation. *)
Lemma indented_bold_md_to_docx_plain :
  startswith "**" (strip "  **Important**") = true /\
  endswith "**" (strip "  **Important**") = true /\
  md_before_bold "  **Important**" = false /\
  MdToDocx.step ["  **Important**"] 0
    = Ok ([Paragraph "  Important" false false], 1).
Proof. repeat split; reflexivity. Qed.

(** C9, as amended.  For a line with non-blank content that none of the
    other rules takes: convert_md_to_docx.py deletes every pair of
    asterisks, then every backtick, then every underscore, and emits one
    plain paragraph with that text when the text still has non-blank
    content, nothing otherwise; convert_to_word.py emits one plain
    paragraph whose text is the trimmed line with no character deleted,
    except that a line starting with '#' yields nothing.  Both move the
    cursor one line on. *)
Theorem regular_paragraphs (lines : list string) (i : nat) (line : string) :
  nth_error lines i = Some line ->
  truthy (strip line) = true ->
  (md_before_paragraph line = false ->
   MdToDocx.step lines i
     = Ok ((if truthy (strip (md_clean line))
            then [Paragraph (md_clean line) false false] else []), S i)) /\
  (tw_before_paragraph line = false ->
   ToWord.step lines i
     = ((if startswith "#" line
         then [] else [Paragraph (strip line) false false]), S i)).
Proof.
  intros Hline Hnb. split.
  - intros Hno. unfold md_before_paragraph, md_before_bold in Hno.
    repeat (apply orb_false_iff in Hno as [Hno ?]).
    unfold MdToDocx.step. rewrite Hline. unfold MdToDocx.classify.
    repeat match goal with H : _ = false |- _ => rewrite H end.
    rewrite Hnb. reflexivity.
  - intros Hno. unfold tw_before_paragraph in Hno.
    repeat (apply orb_false_iff in Hno as [Hno ?]).
    unfold ToWord.step. rewrite Hline. unfold ToWord.classify.
    repeat match goal with H : _ = false |- _ => rewrite H end.
    rewrite Hnb.
    destruct (startswith "#" line); [reflexivity|].
    destruct (startswith "|" line) eqn:Hp; [|reflexivity].
    apply startswith_first_char in Hp.
    pose proof (first_char_strip _ _ Hp eq_refl) as Hs.
    apply first_char_startswith1 in Hs. congruence.
Qed.

Lemma regular_paragraphs_witness :
  MdToDocx.step ["see **x**, `y` and z_1"] 0
    = Ok ([Paragraph "see x, y and z1" false false], 1) /\
  ToWord.step ["see **x**, `y` and z_1"] 0
    = ([Paragraph "see **x**, `y` and z_1" false false], 1).
Proof.
  destruct (regular_paragraphs ["see **x**, `y` and z_1"] 0
              "see **x**, `y` and z_1" eq_refl eq_refl) as [Hmd Htw].
  split; [apply Hmd|apply Htw]; reflexivity.
Defined.

(** C9 as stated fails in both scripts: in convert_md_to_docx.py a line
    of underscores has non-blank content and matches no other rule, yet
    nothing is emitted because the cleaned text is empty; in
    convert_to_word.py the underscore of [a_b] stays in the paragraph. *)
Lemma paragraph_markers_counterexample :
  truthy (strip "__") = true /\
  md_before_paragraph "__" = false /\
  MdToDocx.step ["__"] 0 = Ok ([], 1) /\
  tw_before_paragraph "a_b" = false /\
  ToWord.step ["a_b"] 0 = ([Paragraph "a_b" false false], 1).
Proof. repeat split; reflexivity. Qed.

(** * Splitting, joining and trimming *)

Section SplitJoin.

Variable c : ascii.

Lemma split_nonempty (s : string) : split c s <> [].
Proof.
  destruct s as [|b r]; cbn [split]; [discriminate|].
  destruct (Ascii.eqb c b); [discriminate|].
  destruct (split c r); discriminate.
Qed.

Lemma split_no_char (s : string) :
  has_char c s = false -> split c s = [s].
Proof.
  induction s as [|b r IH]; cbn [has_char split]; [reflexivity|].
  intros H. apply orb_false_iff in H as [Hb Hr].
  rewrite Hb, (IH Hr). reflexivity.
Qed.

(** Splitting at the first separator. *)
Lemma split_app_first (a b : string) :
  has_char c a = false ->
  split c (a ++ String c b) = a :: split c b.
Proof.
  induction a as [|x a IH]; cbn [has_char String.append split].
  - intros _. now rewrite Ascii.eqb_refl.
  - intros H. apply orb_false_iff in H as [Hx Ha].
    rewrite Hx, (IH Ha). reflexivity.
Qed.

(** Splitting at the last separator. *)
Lemma split_app_last (a b : string) :
  has_char c b = false ->
  split c (a ++ String c b) = split c a ++ [b].
Proof.
  intros Hb. induction a as [|x a IH]; cbn [String.append split].
  - now rewrite Ascii.eqb_refl, (split_no_char b Hb).
  - rewrite IH. destruct (Ascii.eqb c x); [reflexivity|].
    pose proof (split_nonempty a) as Hne.
    destruct (split c a) as [|w ws]; [contradiction|reflexivity].
Qed.

Lemma has_char_app (a b : string) :
  has_char c (a ++ b) = has_char c a || has_char c b.
Proof.
  induction a as [|x a IH]; cbn [String.append has_char]; [reflexivity|].
  now rewrite IH, orb_assoc.
Qed.

Lemma first_occurrence (s : string) :
  has_char c s = true ->
  exists a b, s = (a ++ String c b)%string /\ has_char c a = false.
Proof.
  induction s as [|x r IH]; cbn [has_char]; [discriminate|].
  destruct (Ascii.eqb c x) eqn:Hx.
  - intros _. apply Ascii.eqb_eq in Hx. subst x.
    exists EmptyString, r. split; reflexivity.
  - cbn [orb]. intros Hr. destruct (IH Hr) as (a & b & -> & Ha).
    exists (String x a), b. split; [reflexivity|].
    cbn [has_char]. now rewrite Hx, Ha.
Qed.

Lemma last_occurrence (s : string) :
  has_char c s = true ->
  exists a b, s = (a ++ String c b)%string /\ has_char c b = false.
Proof.
  induction s as [|x r IH]; cbn [has_char]; [discriminate|].
  destruct (has_char c r) eqn:Hr.
  - intros _. destruct (IH eq_refl) as (a & b & -> & Hb).
    exists (String x a), b. split; [reflexivity|exact Hb].
  - rewrite orb_false_r. intros Hx. apply Ascii.eqb_eq in Hx. subst x.
    exists EmptyString, r. split; [reflexivity|exact Hr].
Qed.

(** [split] undoes [join] on pieces that do not hold the separator. *)
Lemma split_join (l : list string) :
  l <> [] ->
  forallb (fun x => negb (has_char c x)) l = true ->
  split c (join (String c EmptyString) l) = l.
Proof.
  unfold join. induction l as [|x l IH]; [contradiction|].
  intros _ H. cbn [forallb] in H. apply andb_true_iff in H as [Hx Hl].
  apply negb_true_iff in Hx.
  destruct l as [|y l].
  - cbn [String.concat]. now apply split_no_char.
  - change (String.concat (String c "") (x :: y :: l))
      with (x ++ String c (String.concat (String c "") (y :: l)))%string.
    rewrite (split_app_first _ _ Hx), IH; [reflexivity|discriminate|exact Hl].
Qed.

End SplitJoin.

Section Trimming.

Variable c : ascii.
Hypothesis c_visible : is_space c = false.

Lemma space_not_sep (x : ascii) : is_space x = true -> Ascii.eqb c x = false.
Proof.
  intros Hx. destruct (Ascii.eqb c x) eqn:E; [|reflexivity].
  apply Ascii.eqb_eq in E. subst x. congruence.
Qed.

Lemma lstrip_app_visible (a b : string) :
  lstrip (a ++ String c b) = (lstrip a ++ String c b)%string.
Proof.
  induction a as [|x a IH]; cbn [String.append lstrip].
  - now rewrite c_visible.
  - destruct (is_space x); [exact IH|reflexivity].
Qed.

Lemma truthy_app_visible (a b : string) : truthy (a ++ String c b) = true.
Proof. destruct a; reflexivity. Qed.

Lemma rstrip_app_visible (a b : string) :
  rstrip (a ++ String c b) = (a ++ String c (rstrip b))%string.
Proof.
  induction a as [|x a IH]; cbn [String.append rstrip].
  - now rewrite c_visible.
  - rewrite IH, truthy_app_visible, andb_false_r. reflexivity.
Qed.

Lemma has_char_lstrip (s : string) : has_char c (lstrip s) = has_char c s.
Proof.
  induction s as [|x r IH]; cbn [lstrip has_char]; [reflexivity|].
  destruct (is_space x) eqn:Hx; [|reflexivity].
  now rewrite (space_not_sep x Hx), IH.
Qed.

Lemma has_char_rstrip (s : string) : has_char c (rstrip s) = has_char c s.
Proof.
  induction s as [|x r IH]; cbn [rstrip has_char]; [reflexivity|].
  destruct (is_space x && negb (truthy (rstrip r))) eqn:E.
  - apply andb_true_iff in E as [Hx Hr]. apply negb_true_iff in Hr.
    rewrite (space_not_sep x Hx), <- IH.
    destruct (rstrip r); [reflexivity|discriminate].
  - cbn [has_char]. now rewrite IH.
Qed.

Lemma has_char_strip (s : string) : has_char c (strip s) = has_char c s.
Proof. unfold strip. now rewrite has_char_rstrip, has_char_lstrip. Qed.

(** A string with a visible character does not trim to nothing. *)
Lemma truthy_strip_visible (s : string) :
  has_char c s = true -> truthy (strip s) = true.
Proof.
  intros H. destruct (first_occurrence c s H) as (a & b & -> & _).
  unfold strip. rewrite lstrip_app_visible, rstrip_app_visible.
  apply truthy_app_visible.
Qed.

Lemma tl_app_nonempty {A} (l : list A) (z : A) :
  l <> [] -> tl (l ++ [z]) = tl l ++ [z].
Proof. destruct l; [contradiction|reflexivity]. Qed.

(** Trimming a line changes only its first and last segments, which
    [[1:-1]] discards. *)
Lemma inner_split_lstrip (s : string) :
  inner (split c (lstrip s)) = inner (split c s).
Proof.
  destruct (has_char c s) eqn:H.
  - destruct (first_occurrence c s H) as (a & b & -> & Ha).
    rewrite lstrip_app_visible.
    rewrite !split_app_first; [reflexivity|exact Ha|].
    now rewrite has_char_lstrip.
  - rewrite !split_no_char; [reflexivity|exact H|].
    now rewrite has_char_lstrip.
Qed.

Lemma inner_split_rstrip (s : string) :
  inner (split c (rstrip s)) = inner (split c s).
Proof.
  destruct (has_char c s) eqn:H.
  - destruct (last_occurrence c s H) as (a & b & -> & Hb).
    rewrite rstrip_app_visible.
    rewrite !split_app_last; [|exact Hb|now rewrite has_char_rstrip].
    unfold inner.
    rewrite !tl_app_nonempty by apply split_nonempty.
    now rewrite !removelast_last.
  - rewrite !split_no_char; [reflexivity|exact H|].
    now rewrite has_char_rstrip.
Qed.

End Trimming.

Section Cells.

Lemma cells_lstrip (s : string) : cells (lstrip s) = cells s.
Proof. unfold cells. now rewrite inner_split_lstrip. Qed.

Lemma cells_rstrip (s : string) : cells (rstrip s) = cells s.
Proof. unfold cells. now rewrite inner_split_rstrip. Qed.

Lemma cells_strip (s : string) : cells (strip s) = cells s.
Proof. unfold strip. now rewrite cells_rstrip, cells_lstrip. Qed.

Lemma any_truthy_nonempty (row : list string) :
  nonempty row && any_truthy row = any_truthy row.
Proof. destruct row; reflexivity. Qed.

End Cells.

(** * Tables in convert_md_to_docx.py *)

Section MdTables.

Lemma pipe_line_has_pipe (l : string) :
  pipe_line l = true -> has_char "|" l = true.
Proof.
  unfold pipe_line. intros H.
  rewrite <- (has_char_strip "|" eq_refl).
  destruct (strip l) as [|b r]; [discriminate|].
  cbn [startswith] in H. apply andb_true_iff in H as [H _].
  cbn [has_char]. now rewrite H.
Qed.

Lemma pipe_line_md_data_line (l : string) :
  pipe_line l = true -> md_data_line l = true.
Proof.
  intros H. unfold md_data_line. rewrite (pipe_line_has_pipe l H).
  unfold pipe_line in H. apply startswith_first_char in H.
  now rewrite (first_char_startswith_false "#" "|" _ _ H).
Qed.

Lemma md_parse_rows_run (data post : list string) :
  forallb md_data_line data = true ->
  ends_with md_data_line post = true ->
  forall rows idx,
    MdToDocx.parse_rows (data ++ post) rows idx
      = (rows ++ map cells (filter qualifying data), idx + length data).
Proof.
  intros Hdata Hpost.
  induction data as [|d data IH]; intros rows idx.
  - cbn [app filter map length]. rewrite app_nil_r, Nat.add_0_r.
    destruct post as [|p post]; [reflexivity|].
    cbn [ends_with] in Hpost. apply negb_true_iff in Hpost.
    unfold md_data_line in Hpost. cbn [MdToDocx.parse_rows].
    destruct (has_char "|" p) eqn:Hp; [|reflexivity].
    cbn [andb] in Hpost. apply negb_false_iff in Hpost.
    now rewrite Hpost, orb_true_r.
  - cbn [forallb] in Hdata. apply andb_true_iff in Hdata as [Hd Hdata].
    unfold md_data_line in Hd. apply andb_true_iff in Hd as [Hp Hh].
    apply negb_true_iff in Hh.
    cbn [app MdToDocx.parse_rows]. rewrite Hp, Hh.
    rewrite (truthy_strip_visible "|" eq_refl d Hp). cbn [negb orb].
    rewrite any_truthy_nonempty, cells_strip, (IH Hdata).
    cbn [filter length]. unfold qualifying at 2.
    destruct (any_truthy (cells d)); cbn [map];
      [rewrite <- app_assoc|]; f_equal; cbn [app]; lia.
Qed.

Lemma nth_error_after {A} (pre : list A) (x : A) (post : list A) :
  nth_error (pre ++ x :: post) (S (length pre)) = nth_error post 0.
Proof. induction pre as [|a pre IH]; [reflexivity|exact IH]. Qed.

Lemma skipn_after {A} (pre : list A) (x y : A) (post : list A) :
  skipn (S (S (length pre))) (pre ++ x :: y :: post) = post.
Proof. induction pre as [|a pre IH]; [reflexivity|exact IH]. Qed.

(** [parse_table] on a fragment: the header line, the separator it
    takes, the data lines it consumes and a first line it does not. *)
Lemma md_parse_table_fragment (pre : list string) (header : string)
    (sepl data post : list string) :
  has_char "|" header = true ->
  md_separator sepl (data ++ post) = true ->
  forallb md_data_line data = true ->
  ends_with md_data_line post = true ->
  MdToDocx.parse_table (pre ++ header :: sepl ++ data ++ post) (length pre)
    = (cells header, map cells (filter qualifying data),
       length pre + 1 + length sepl + length data).
Proof.
  intros Hh Hsep Hdata Hpost.
  unfold MdToDocx.parse_table.
  rewrite nth_error_middle, Hh, nth_error_after, cells_strip.
  destruct sepl as [|sep [|sep2 sepl]]; cbn [md_separator] in Hsep;
    [| |discriminate]; cbn [app length].
  - remember (data ++ post) as rest eqn:E.
    destruct rest as [|x rest]; cbn [nth_error].
    + rewrite skipn_middle.
      symmetry in E. apply app_eq_nil in E as [-> _].
      cbn [MdToDocx.parse_rows filter map length]. do 2 f_equal. lia.
    + apply negb_true_iff in Hsep. rewrite Hsep, skipn_middle, E.
      rewrite (md_parse_rows_run data post Hdata Hpost).
      cbn [app]. do 2 f_equal. lia.
  - cbn [nth_error]. rewrite Hsep, skipn_after.
    rewrite (md_parse_rows_run data post Hdata Hpost).
    cbn [app]. do 2 f_equal. lia.
Qed.

End MdTables.

(** * Tables in convert_to_word.py *)

Section JoinedTable.

Lemma has_char_truthy (c : ascii) (s : string) :
  has_char c s = true -> truthy s = true.
Proof. destruct s; [discriminate|reflexivity]. Qed.

Lemma truthy_app_r (a b : string) : truthy b = true -> truthy (a ++ b) = true.
Proof. destruct a; [easy|reflexivity]. Qed.

Lemma lstrip_app_truthy (a b : string) :
  truthy (lstrip a) = true -> lstrip (a ++ b) = (lstrip a ++ b)%string.
Proof.
  induction a as [|x a IH]; cbn [String.append lstrip]; [discriminate|].
  destruct (is_space x); [exact IH|reflexivity].
Qed.

Lemma rstrip_app_truthy (a b : string) :
  truthy (rstrip b) = true -> rstrip (a ++ b) = (a ++ rstrip b)%string.
Proof.
  intros Hb. induction a as [|x a IH]; cbn [String.append rstrip];
    [reflexivity|].
  rewrite IH, (truthy_app_r a _ Hb), andb_false_r. reflexivity.
Qed.

Lemma lstrip_keeps_absent (c : ascii) (s : string) :
  has_char c s = false -> has_char c (lstrip s) = false.
Proof.
  induction s as [|x r IH]; cbn [lstrip]; [easy|].
  destruct (is_space x); [|easy].
  cbn [has_char]. intros H. apply orb_false_iff in H as [_ H]. auto.
Qed.

Lemma rstrip_keeps_absent (c : ascii) (s : string) :
  has_char c s = false -> has_char c (rstrip s) = false.
Proof.
  induction s as [|x r IH]; cbn [rstrip has_char]; [easy|].
  intros H. apply orb_false_iff in H as [Hx Hr].
  destruct (is_space x && negb (truthy (rstrip r))); [reflexivity|].
  cbn [has_char]. now rewrite Hx, (IH Hr).
Qed.

Lemma map_last_length {A} (f : A -> A) (l : list A) :
  length (map_last f l) = length l.
Proof.
  induction l as [|x [|y r] IH]; [reflexivity|reflexivity|].
  change (map_last f (x :: y :: r)) with (x :: map_last f (y :: r)).
  cbn [length] in *. now rewrite IH.
Qed.

Lemma join_cons2 (x y : string) (r : list string) :
  join nl (x :: y :: r) = (x ++ String LF (join nl (y :: r)))%string.
Proof. reflexivity. Qed.

Lemma has_pipe_join (x : string) (r : list string) :
  has_char "|" x = true -> has_char "|" (join nl (x :: r)) = true.
Proof.
  intros Hx. destruct r as [|y r]; [exact Hx|].
  now rewrite join_cons2, has_char_app, Hx.
Qed.

Lemma lstrip_join (x : string) (r : list string) :
  has_char "|" x = true ->
  lstrip (join nl (x :: r)) = join nl (lstrip x :: r).
Proof.
  intros Hx. destruct r as [|y r]; [reflexivity|].
  rewrite !join_cons2. apply lstrip_app_truthy.
  apply (has_char_truthy "|"). now rewrite (has_char_lstrip "|" eq_refl).
Qed.

Lemma rstrip_join (l : list string) :
  forallb (has_char "|") l = true ->
  rstrip (join nl l) = join nl (map_last rstrip l).
Proof.
  induction l as [|x [|y r] IH]; [reflexivity|reflexivity|].
  intros H. cbn [forallb] in H. apply andb_true_iff in H as [_ H].
  change (map_last rstrip (x :: y :: r)) with (x :: map_last rstrip (y :: r)).
  assert (Hy : has_char "|" y = true).
  { cbn [forallb] in H. now apply andb_true_iff in H as [Hy _]. }
  assert (Hne : exists z t, map_last rstrip (y :: r) = z :: t).
  { destruct r as [|y' r]; cbn [map_last]; eauto. }
  destruct Hne as (z & t & Hzt).
  rewrite join_cons2, Hzt, join_cons2, <- Hzt, <- (IH H).
  assert (Ht : truthy (rstrip (join nl (y :: r))) = true).
  { apply (has_char_truthy "|").
    rewrite (has_char_rstrip "|" eq_refl). now apply has_pipe_join. }
  rewrite rstrip_app_truthy; cbn [rstrip]; rewrite Ht, andb_false_r;
    reflexivity.
Qed.

Lemma map_last_forallb {A} (f : A -> A) (P : A -> bool) (l : list A) :
  (forall x, P x = true -> P (f x) = true) ->
  forallb P l = true -> forallb P (map_last f l) = true.
Proof.
  intros Hf. induction l as [|x [|y r] IH]; [easy| |].
  - cbn [map_last forallb]. rewrite !andb_true_r. apply Hf.
  - change (map_last f (x :: y :: r)) with (x :: map_last f (y :: r)).
    intros H. cbn [forallb] in H. apply andb_true_iff in H as [Hx H].
    cbn [forallb]. rewrite Hx. exact (IH H).
Qed.

(** The lines [add_table_from_markdown] gets back from the joined and
    trimmed table text: the lines collected, the first one trimmed on the
    left and the last one on the right. *)
Lemma tw_table_text_lines (x : string) (r : list string) :
  forallb (has_char "|") (x :: r) = true ->
  forallb no_lf (x :: r) = true ->
  split LF (strip (join nl (x :: r))) = map_last rstrip (lstrip x :: r).
Proof.
  intros Hp Hlf. unfold strip.
  assert (Hx : has_char "|" x = true).
  { cbn [forallb] in Hp. now apply andb_true_iff in Hp as [Hx _]. }
  rewrite (lstrip_join x r Hx), rstrip_join.
  - apply split_join.
    + destruct r; discriminate.
    + apply (map_last_forallb rstrip no_lf).
      * unfold no_lf. intros y Hy. apply negb_true_iff in Hy.
        now rewrite rstrip_keeps_absent.
      * cbn [forallb] in *. apply andb_true_iff in Hlf as [Hlx Hlr].
        rewrite Hlr, andb_true_r. unfold no_lf in *.
        apply negb_true_iff in Hlx. now rewrite lstrip_keeps_absent.
  - cbn [forallb] in *. apply andb_true_iff in Hp as [_ Hr].
    now rewrite (has_char_lstrip "|" eq_refl), Hx, Hr.
Qed.

End JoinedTable.

Section TwTables.

Lemma tw_table_rows_trim (h : list string) (data : list string) :
  forallb (has_char "|") data = true ->
  ToWord.table_rows h (map_last rstrip data) = ToWord.table_rows h data.
Proof.
  induction data as [|d [|e r] IH]; [reflexivity| |].
  - intros H. cbn [forallb] in H. apply andb_true_iff in H as [Hd _].
    cbn [map_last ToWord.table_rows].
    rewrite (has_char_rstrip "|" eq_refl), cells_rstrip, Hd.
    rewrite (truthy_strip_visible "|" eq_refl d Hd).
    rewrite (truthy_strip_visible "|" eq_refl (rstrip d));
      [reflexivity|now rewrite (has_char_rstrip "|" eq_refl)].
  - intros H. cbn [forallb] in H. apply andb_true_iff in H as [_ H].
    change (map_last rstrip (d :: e :: r)) with (d :: map_last rstrip (e :: r)).
    cbn [ToWord.table_rows] in *. now rewrite (IH H).
Qed.

Lemma tw_table_rows_filter (header : string) (data : list string) :
  forallb (has_char "|") data = true ->
  ToWord.table_rows (cells header) data
    = map cells (filter (same_width header) data).
Proof.
  induction data as [|d data IH]; [reflexivity|].
  intros H. cbn [forallb] in H. apply andb_true_iff in H as [Hd H].
  cbn [ToWord.table_rows filter].
  rewrite Hd, (truthy_strip_visible "|" eq_refl d Hd), (IH H).
  cbn [andb].
  change (length (cells d) =? length (cells header))
    with (same_width header d).
  destruct (same_width header d); reflexivity.
Qed.

Lemma forallb_pipe_line_has_pipe (l : list string) :
  forallb pipe_line l = true -> forallb (has_char "|") l = true.
Proof.
  induction l as [|x l IH]; [easy|]. cbn [forallb]. intros H.
  apply andb_true_iff in H as [Hx H].
  now rewrite (pipe_line_has_pipe x Hx), IH.
Qed.


(** Three or more table lines: a table with the cells of the first line
    as header and one row for each line after the second that has as many
    cells as the header. *)
Lemma tw_add_table_full (header sep d : string) (ds : list string) :
  forallb (has_char "|") (header :: sep :: d :: ds) = true ->
  forallb no_lf (header :: sep :: d :: ds) = true ->
  ToWord.add_table_from_markdown (join nl (header :: sep :: d :: ds))
    = [Table (cells header)
         (map cells (filter (same_width header) (d :: ds)))].
Proof.
  intros Hp Hlf. unfold ToWord.add_table_from_markdown.
  rewrite (tw_table_text_lines header _ Hp Hlf).
  change (map_last rstrip (lstrip header :: sep :: d :: ds))
    with (lstrip header :: sep :: map_last rstrip (d :: ds)).
  cbn [length Nat.ltb Nat.leb nth skipn]. rewrite cells_lstrip.
  assert (Hd : forallb (has_char "|") (d :: ds) = true).
  { cbn [forallb] in *. apply andb_true_iff in Hp as [_ Hp].
    now apply andb_true_iff in Hp as [_ Hp]. }
  rewrite map_last_length. cbn [length Nat.leb].
  now rewrite (tw_table_rows_trim _ _ Hd), (tw_table_rows_filter _ _ Hd).
Qed.

Lemma tw_collect_table_run (more post : list string) :
  forallb pipe_line more = true ->
  ends_with pipe_line post = true ->
  forall acc i,
    ToWord.collect_table (more ++ post) acc i
      = (acc ++ more, i + length more).
Proof.
  intros Hmore Hpost.
  induction more as [|l more IH]; intros acc i.
  - rewrite app_nil_r, Nat.add_0_r. cbn [app].
    destruct post as [|p post]; cbn [ToWord.collect_table]; [reflexivity|].
    cbn [ends_with] in Hpost. apply negb_true_iff in Hpost.
    unfold pipe_line in Hpost. now rewrite Hpost.
  - cbn [forallb] in Hmore. apply andb_true_iff in Hmore as [Hl Hmore].
    cbn [app ToWord.collect_table]. unfold pipe_line in Hl. rewrite Hl.
    rewrite (IH Hmore), <- app_assoc. cbn [app length]. f_equal. lia.
Qed.

(** The table branch of convert_to_word.py on a run of table lines. *)
Lemma tw_table_step (pre : list string) (header : string)
    (more post : list string) :
  pipe_line header = true ->
  forallb pipe_line more = true ->
  ends_with pipe_line post = true ->
  ToWord.step (pre ++ header :: more ++ post) (length pre)
    = (ToWord.add_table_from_markdown (join nl (header :: more)),
       length pre + 1 + length more).
Proof.
  intros Hh Hmore Hpost.
  unfold ToWord.step. rewrite nth_error_middle. unfold ToWord.classify.
  assert (Hfc : first_char (strip header) = Some "|"%char)
    by (apply (startswith_first_char _ _ _ Hh)).
  rewrite !(strip_first_char_excludes "#" "|" _ header Hfc)
    by (discriminate || reflexivity).
  rewrite (strip_first_char_excludes "`" "|" _ header Hfc)
    by (discriminate || reflexivity).
  unfold pipe_line in Hh. rewrite Hh, skipn_middle.
  rewrite (tw_collect_table_run more post Hmore Hpost).
  cbn [app]. f_equal. lia.
Qed.

Lemma forallb_cells_fit (header : string) (l : list string) :
  forallb (MdToDocx.row_fits (length (cells header))) (map cells l)
  = forallb (not_wider header) l.
Proof.
  induction l as [|d l IH]; [reflexivity|].
  cbn [map forallb]. now rewrite IH.
Qed.

(** The table branch of convert_md_to_docx.py on a fragment. *)
Lemma md_table_step (pre : list string) (header : string)
    (sepl data post : list string) :
  md_table_header header = true ->
  md_separator sepl (data ++ post) = true ->
  forallb md_data_line data = true ->
  ends_with md_data_line post = true ->
  MdToDocx.step (pre ++ header :: sepl ++ data ++ post) (length pre)
    = if nonempty (cells header)
         && nonempty (map cells (filter qualifying data))
      then if forallb (not_wider header) (filter qualifying data)
           then Ok ([Table (cells header)
                       (map cells (filter qualifying data))],
                    length pre + 1 + length sepl + length data)
           else IndexError
      else Ok ([], length pre + 1 + length sepl + length data).
Proof.
  intros Hh Hsep Hdata Hpost.
  unfold md_table_header in Hh. apply andb_true_iff in Hh as [Hp Hhead].
  apply negb_true_iff in Hhead. unfold heading_prefix in Hhead.
  repeat (apply orb_false_iff in Hhead as [Hhead ?]).
  unfold MdToDocx.step. rewrite nth_error_middle. unfold MdToDocx.classify.
  rewrite (truthy_strip_visible "|" eq_refl header Hp). cbn [negb].
  repeat match goal with H : startswith _ header = false |- _ =>
           rewrite H; clear H end.
  rewrite Hp, (md_parse_table_fragment pre header sepl data post
                 Hp Hsep Hdata Hpost).
  unfold MdToDocx.add_table_to_doc.
  rewrite forallb_cells_fit.
  destruct (nonempty (cells header)); [|reflexivity].
  destruct (nonempty (map cells (filter qualifying data))); [|reflexivity].
  cbn [andb negb orb].
  destruct (forallb (not_wider header) (filter qualifying data)); reflexivity.
Qed.

End TwTables.

Section TableFacts.

Lemma split_length (c : ascii) (s : string) :
  length (split c s) = S (count_char c s).
Proof.
  induction s as [|b r IH]; [reflexivity|].
  cbn [split count_char]. destruct (Ascii.eqb c b); cbn [length Nat.add].
  - now rewrite IH.
  - destruct (split c r) as [|w ws]; [discriminate IH|exact IH].
Qed.

Lemma inner_length {A} (l : list A) : length (inner l) = length l - 2.
Proof.
  unfold inner. destruct l as [|x l]; [reflexivity|]. cbn [tl length].
  induction l as [|y l IH]; [reflexivity|].
  destruct l as [|z l]; [reflexivity|].
  change (removelast (y :: z :: l)) with (y :: removelast (z :: l)).
  cbn [length] in *. rewrite IH. lia.
Qed.

(** A line has one cell fewer than it has pipes. *)
Lemma cells_length (s : string) : length (cells s) = count_char "|" s - 1.
Proof.
  unfold cells. rewrite length_map, inner_length, split_length. lia.
Qed.

Lemma pipe_line_md_table_header (h : string) :
  pipe_line h = true -> md_table_header h = true.
Proof.
  intros H. unfold md_table_header, heading_prefix.
  rewrite (pipe_line_has_pipe h H).
  unfold pipe_line in H. apply startswith_first_char in H.
  now rewrite !(strip_first_char_excludes "#" "|" _ h H)
    by (discriminate || reflexivity).
Qed.

Lemma forallb_pipe_line_md_data_line (l : list string) :
  forallb pipe_line l = true -> forallb md_data_line l = true.
Proof.
  induction l as [|x l IH]; [easy|]. cbn [forallb]. intros H.
  apply andb_true_iff in H as [Hx H].
  now rewrite (pipe_line_md_data_line x Hx), IH.
Qed.

Lemma ends_no_pipe_md (post : list string) :
  ends_with (has_char "|") post = true ->
  ends_with md_data_line post = true.
Proof.
  destruct post as [|p post]; [easy|]. cbn [ends_with]. intros H.
  apply negb_true_iff in H. unfold md_data_line. now rewrite H.
Qed.

Lemma ends_no_pipe_tw (post : list string) :
  ends_with (has_char "|") post = true ->
  ends_with pipe_line post = true.
Proof.
  destruct post as [|p post]; [easy|]. cbn [ends_with]. intros H.
  apply negb_true_iff in H. apply negb_true_iff.
  destruct (pipe_line p) eqn:E; [|reflexivity].
  apply pipe_line_has_pipe in E. congruence.
Qed.

Lemma nonempty_map_filter {A B} (f : A -> B) (P : A -> bool) (l : list A) :
  nonempty (map f (filter P l)) = existsb P l.
Proof.
  induction l as [|x l IH]; [reflexivity|]. cbn [filter existsb].
  destruct (P x); [reflexivity|exact IH].
Qed.


End TableFacts.

Section TableSteps.


(** Both table branches on a block of header, separator and data
    lines. *)
Lemma block_table_steps (pre : list string) (header sep : string)
    (data post : list string) :
  pipe_line header = true ->
  pipe_line sep = true ->
  has_sub "---" sep = true ->
  forallb pipe_line data = true ->
  data <> [] ->
  ends_with (has_char "|") post = true ->
  forallb no_lf (header :: sep :: data) = true ->
  (nonempty (cells header) = true ->
   existsb qualifying data = true ->
   MdToDocx.step (pre ++ header :: sep :: data ++ post) (length pre)
     = if forallb (not_wider header) (filter qualifying data)
       then Ok ([Table (cells header) (map cells (filter qualifying data))],
                length pre + 2 + length data)
       else IndexError) /\
  ToWord.step (pre ++ header :: sep :: data ++ post) (length pre)
    = ([Table (cells header) (map cells (filter (same_width header) data))],
       length pre + 2 + length data).
Proof.
  intros Hh Hs Hsep Hdata Hne Hpost Hlf. split.
  - intros Hcells Hq.
    pose proof (md_table_step pre header [sep] data post
                  (pipe_line_md_table_header _ Hh) Hsep
                  (forallb_pipe_line_md_data_line _ Hdata)
                  (ends_no_pipe_md _ Hpost)) as Hstep.
    cbn [app length] in Hstep. rewrite Hstep.
    rewrite Hcells, nonempty_map_filter, Hq. cbn [andb].
    destruct (forallb (not_wider header) (filter qualifying data));
      [|reflexivity].
    do 2 f_equal. lia.
  - pose proof (tw_table_step pre header (sep :: data) post Hh) as Hstep.
    cbn [forallb app length] in Hstep.
    rewrite Hstep; [|now rewrite Hs, Hdata|now apply ends_no_pipe_tw].
    destruct data as [|d ds]; [contradiction|].
    rewrite tw_add_table_full; [f_equal; cbn [length]; lia| |exact Hlf].
    apply (forallb_pipe_line_has_pipe (header :: sep :: d :: ds)).
    cbn [forallb] in *. now rewrite Hh, Hs, Hdata.
Qed.


End TableSteps.

(** * Tables: the properties *)

(** C4, as amended.  Take a block made of a header line, a separator
    line and at least one data line, each starting with a pipe once
    trimmed, followed by the end of the input or by a line without a pipe.
    Both scanners take the cells between the pipes of the header as the
    table's headers, one fewer than the header has pipes, and end just
    past the block.  convert_md_to_docx.py emits a table when the header
    has a cell, some data line has a non-empty cell and no such data line
    has more cells than the header; its rows are the data lines that have
    a non-empty cell.  convert_to_word.py emits a table whose rows are the
    data lines with as many cells as the header, all-empty ones
    included. *)
Theorem table_counts (pre : list string) (header sep : string)
    (data post : list string) :
  pipe_line header = true ->
  pipe_line sep = true ->
  has_sub "---" sep = true ->
  forallb pipe_line data = true ->
  data <> [] ->
  ends_with (has_char "|") post = true ->
  forallb no_lf (header :: sep :: data) = true ->
  length (cells header) = count_char "|" header - 1 /\
  (nonempty (cells header) = true ->
   existsb qualifying data = true ->
   forallb (not_wider header) (filter qualifying data) = true ->
   MdToDocx.step (pre ++ header :: sep :: data ++ post) (length pre)
     = Ok ([Table (cells header) (map cells (filter qualifying data))],
           length pre + 2 + length data) /\
   length (map cells (filter qualifying data))
     = length (filter qualifying data)) /\
  ToWord.step (pre ++ header :: sep :: data ++ post) (length pre)
    = ([Table (cells header) (map cells (filter (same_width header) data))],
       length pre + 2 + length data) /\
  length (map cells (filter (same_width header) data))
    = length (filter (same_width header) data).
Proof.
  intros Hh Hs Hsep Hdata Hne Hpost Hlf.
  destruct (block_table_steps pre header sep data post
              Hh Hs Hsep Hdata Hne Hpost Hlf) as [Hmd Htw].
  split; [apply cells_length|]. split; [|split].
  - intros Hcells Hq Hfit. split; [|apply length_map].
    now rewrite (Hmd Hcells Hq), Hfit.
  - exact Htw.
  - apply length_map.
Qed.

Lemma table_counts_witness :
  MdToDocx.step
    ["intro"; "| A | B |"; "|---|---|"; "| 1 | 2 |"; "|  |  |"; "| 3 |"; ""]
    1
    = Ok ([Table ["A"; "B"] [["1"; "2"]; ["3"]]], 6) /\
  ToWord.step
    ["intro"; "| A | B |"; "|---|---|"; "| 1 | 2 |"; "|  |  |"; "| 3 |"; ""]
    1
    = ([Table ["A"; "B"] [["1"; "2"]; [""; ""]]], 6).
Proof.
  destruct (table_counts ["intro"] "| A | B |" "|---|---|"
              ["| 1 | 2 |"; "|  |  |"; "| 3 |"] [""])
    as (_ & Hmd & Htw & _); try reflexivity; [discriminate|].
  split; [apply Hmd; reflexivity|exact Htw].
Defined.

(** C4 as stated fails for convert_to_word.py: a data row whose cells
    are all empty is kept, so the table gets two rows where one data line
    qualifies. *)
Lemma all_empty_row_kept_to_word :
  ToWord.step ["| A | B |"; "|---|---|"; "| 1 | 2 |"; "|  |  |"] 0
    = ([Table ["A"; "B"] [["1"; "2"]; [""; ""]]], 4) /\
  length (filter qualifying ["| 1 | 2 |"; "|  |  |"]) = 1.
Proof. split; reflexivity. Qed.

Section Ragged.

Lemma in_map_filter {A B} (f : A -> B) (P : A -> bool) (l : list A) (x : A) :
  In x l -> P x = true -> In (f x) (map f (filter P l)).
Proof.
  intros Hin HP. apply in_map. apply filter_In. now split.
Qed.

Lemma same_width_rows (header : string) (data : list string) (r : list string) :
  In r (map cells (filter (same_width header) data)) ->
  length r = length (cells header).
Proof.
  intros H. apply in_map_iff in H as (d & <- & Hd).
  apply filter_In in Hd as [_ Hw]. unfold same_width in Hw.
  now apply Nat.eqb_eq in Hw.
Qed.

End Ragged.

(** C5, as amended.  In a block as in C4, take a data line whose number
    of cells differs from the header's.  In convert_md_to_docx.py, when
    no data line with a non-empty cell has more cells than the header,
    the step returns and the line's cells are in the table as they are,
    neither cut nor padded, provided one of them is not empty.  In
    convert_to_word.py the step returns and leaves the line out: every
    row of its table has exactly as many cells as the header. *)
Theorem ragged_rows (pre : list string) (header sep d : string)
    (data post : list string) :
  pipe_line header = true ->
  pipe_line sep = true ->
  has_sub "---" sep = true ->
  forallb pipe_line data = true ->
  ends_with (has_char "|") post = true ->
  forallb no_lf (header :: sep :: data) = true ->
  In d data ->
  length (cells d) <> length (cells header) ->
  (nonempty (cells header) = true ->
   qualifying d = true ->
   forallb (not_wider header) (filter qualifying data) = true ->
   exists rows,
     MdToDocx.step (pre ++ header :: sep :: data ++ post) (length pre)
       = Ok ([Table (cells header) rows], length pre + 2 + length data) /\
     In (cells d) rows /\
     length (cells d) < length (cells header)) /\
  (exists rows,
     ToWord.step (pre ++ header :: sep :: data ++ post) (length pre)
       = ([Table (cells header) rows], length pre + 2 + length data) /\
     ~ In (cells d) rows /\
     forall r, In r rows -> length r = length (cells header)).
Proof.
  intros Hh Hs Hsep Hdata Hpost Hlf Hin Hw.
  assert (Hne : data <> []) by (intros ->; contradiction).
  destruct (block_table_steps pre header sep data post
              Hh Hs Hsep Hdata Hne Hpost Hlf) as [Hmd Htw].
  split.
  - intros Hcells Hq Hfit. eexists. split; [|split].
    + rewrite Hmd, Hfit; [reflexivity|exact Hcells|].
      apply existsb_exists. now exists d.
    + now apply in_map_filter.
    + assert (Hd : not_wider header d = true).
      { apply (proj1 (forallb_forall _ _) Hfit).
        apply filter_In. now split. }
      unfold not_wider in Hd. apply Nat.leb_le in Hd. lia.
  - eexists. split; [exact Htw|]. split.
    + intros Hc. apply same_width_rows in Hc. contradiction.
    + apply same_width_rows.
Qed.

Lemma ragged_rows_witness :
  (exists rows,
     MdToDocx.step ["| A | B |"; "|---|---|"; "| 1 |"; "| 4 | 5 |"] 0
       = Ok ([Table ["A"; "B"] rows], 4) /\
     In ["1"] rows /\ 1 < 2) /\
  (exists rows,
     ToWord.step ["| A | B |"; "|---|---|"; "| 1 |"; "| 4 | 5 |"] 0
       = ([Table ["A"; "B"] rows], 4) /\
     ~ In ["1"] rows /\
     forall r, In r rows -> length r = 2).
Proof.
  destruct (ragged_rows [] "| A | B |" "|---|---|" "| 1 |"
              ["| 1 |"; "| 4 | 5 |"] [])
    as [Hmd Htw]; try reflexivity.
  - now left.
  - discriminate.
  - split; [apply Hmd; reflexivity|exact Htw].
Defined.

(** C5 as stated fails for convert_to_word.py: the data line with three
    cells under a header of two is dropped, not accepted as it is. *)
Lemma ragged_row_dropped_to_word :
  ToWord.step ["| A | B |"; "|---|---|"; "| 1 | 2 | 3 |"; "| 4 | 5 |"] 0
    = ([Table ["A"; "B"] [["4"; "5"]]], 4).
Proof. reflexivity. Qed.




(** * Further properties of the two scanners *)

(** Case analysis on the [if]/[elif] chain of a step, keeping the
    outcome of each test. *)
Ltac split_chain :=
  repeat match goal with
         | |- context [MdToDocx.parse_table ?l ?j] =>
             let h := fresh "hdrs" in
             let r := fresh "rows" in
             let n := fresh "next" in
             let E := fresh "Eparse" in
             destruct (MdToDocx.parse_table l j) as [[h r] n] eqn:E
         | |- context [ToWord.collect_code ?l ?a ?j] =>
             let c := fresh "code" in
             let n := fresh "next" in
             let E := fresh "Ecode" in
             destruct (ToWord.collect_code l a j) as [c n] eqn:E
         | |- context [ToWord.collect_table ?l ?a ?j] =>
             let c := fresh "tbl" in
             let n := fresh "next" in
             let E := fresh "Etbl" in
             destruct (ToWord.collect_table l a j) as [c n] eqn:E
         | |- context [if ?b then _ else _] =>
             let E := fresh "Etest" in destruct b eqn:E
         end.

Section Blank.

Lemma blank_first_char (line : string) (c : ascii) :
  truthy (strip line) = false -> first_char line = Some c ->
  is_space c = true.
Proof.
  intros Hb Hc. destruct (is_space c) eqn:E; [reflexivity|].
  rewrite (truthy_first_char _ _ (first_char_strip _ _ Hc E)) in Hb.
  discriminate.
Qed.

Lemma blank_not_startswith (line : string) (a : ascii) (p : string) :
  truthy (strip line) = false -> is_space a = false ->
  startswith (String a p) line = false.
Proof.
  intros Hb Ha. destruct (startswith (String a p) line) eqn:E; [|reflexivity].
  apply startswith_first_char in E.
  rewrite (blank_first_char line a Hb E) in Ha. discriminate.
Qed.

Lemma blank_steps (lines : list string) (i : nat) (line : string) :
  nth_error lines i = Some line ->
  truthy (strip line) = false ->
  MdToDocx.step lines i = Ok ([], S i) /\ ToWord.step lines i = ([], S i).
Proof.
  intros Hline Hb. unfold MdToDocx.step, ToWord.step. rewrite Hline.
  unfold MdToDocx.classify, ToWord.classify. rewrite Hb.
  rewrite !(blank_not_startswith line "#" _ Hb eq_refl).
  rewrite (blank_not_startswith line "`" _ Hb eq_refl).
  destruct (strip line); [|discriminate]. split; reflexivity.
Qed.

End Blank.

(** X1.  A line holding nothing but whitespace makes both scanners emit
    nothing and move one line on: convert_md_to_docx.py by its first
    test, convert_to_word.py because no test of its chain accepts the
    line. *)
Theorem blank_lines_skipped (lines : list string) (i : nat) (line : string) :
  nth_error lines i = Some line ->
  truthy (strip line) = false ->
  MdToDocx.step lines i = Ok ([], S i) /\ ToWord.step lines i = ([], S i).
Proof. apply blank_steps. Qed.

Lemma blank_lines_skipped_witness :
  MdToDocx.step ["a"; "   "; "b"] 1 = Ok ([], 2) /\
  ToWord.step ["a"; "   "; "b"] 1 = ([], 2).
Proof.
  apply (blank_lines_skipped ["a"; "   "; "b"] 1 "   "); reflexivity.
Defined.

Section OneCall.

Lemma md_step_at_most_one (lines : list string) (i : nat) :
  length (MdToDocx.calls (MdToDocx.step lines i)) <= 1.
Proof.
  unfold MdToDocx.step. destruct (nth_error lines i); [|cbn; lia].
  unfold MdToDocx.classify, MdToDocx.add_table_to_doc.
  split_chain; cbn [MdToDocx.calls length]; lia.
Qed.

Lemma tw_step_at_most_one (lines : list string) (i : nat) :
  length (fst (ToWord.step lines i)) <= 1.
Proof.
  unfold ToWord.step. destruct (nth_error lines i); [|cbn; lia].
  unfold ToWord.classify, ToWord.add_table_from_markdown.
  split_chain; cbn [fst length]; lia.
Qed.

End OneCall.

(** X2.  One iteration of either loop makes at most one call on the
    document. *)
Theorem step_emits_at_most_one (lines : list string) (i : nat) :
  length (MdToDocx.calls (MdToDocx.step lines i)) <= 1 /\
  length (fst (ToWord.step lines i)) <= 1.
Proof.
  split; [apply md_step_at_most_one|apply tw_step_at_most_one].
Qed.

Section CursorBounds.

Lemma md_parse_rows_le (rest : list string) :
  forall rows idx,
    snd (MdToDocx.parse_rows rest rows idx) <= idx + length rest.
Proof.
  induction rest as [|l rest IH]; intros rows idx;
    cbn [MdToDocx.parse_rows snd length]; [lia|].
  destruct (has_char "|" l); cbn [snd]; [|lia].
  destruct (negb (truthy (strip l)) || startswith "#" (strip l));
    cbn [snd]; [lia|].
  etransitivity; [apply IH|]. lia.
Qed.

Lemma md_parse_table_le (lines : list string) (i : nat) :
  i <= length lines ->
  snd (MdToDocx.parse_table lines i) <= length lines.
Proof.
  intros Hi. unfold MdToDocx.parse_table.
  destruct (nth_error lines i) as [l|] eqn:Hl; [|exact Hi].
  destruct (has_char "|" l); [|exact Hi].
  assert (Hlt : i < length lines) by (apply nth_error_Some; congruence).
  match goal with
  | |- context [MdToDocx.parse_rows (skipn ?j lines) [] ?j] =>
      assert (Hj : j <= length lines);
      [|pose proof (md_parse_rows_le (skipn j lines) [] j) as Hle;
        rewrite length_skipn in Hle;
        destruct (MdToDocx.parse_rows (skipn j lines) [] j) as [rows idx];
        cbn [snd] in *; lia]
  end.
  destruct (nth_error lines (S i)) as [sep|] eqn:Hs; [|lia].
  assert (S i < length lines) by (apply nth_error_Some; congruence).
  destruct (has_sub "---" sep); lia.
Qed.

Lemma tw_collect_code_le (rest : list string) :
  forall acc i, snd (ToWord.collect_code rest acc i) <= i + length rest.
Proof.
  induction rest as [|l rest IH]; intros acc i;
    cbn [ToWord.collect_code snd length]; [lia|].
  destruct (negb (startswith "```" l)); cbn [snd]; [|lia].
  etransitivity; [apply IH|]. lia.
Qed.

Lemma tw_collect_table_le (rest : list string) :
  forall acc i, snd (ToWord.collect_table rest acc i) <= i + length rest.
Proof.
  induction rest as [|l rest IH]; intros acc i;
    cbn [ToWord.collect_table snd length]; [lia|].
  destruct (startswith "|" (strip l)); cbn [snd]; [|lia].
  etransitivity; [apply IH|]. lia.
Qed.

End CursorBounds.

(** X3.  The cursor never runs away.  From a line of the input, a step
    of convert_md_to_docx.py that returns leaves the cursor at most at
    the end of the input; a step of convert_to_word.py leaves it at most
    one past the end, and at most at the end unless the line opens a code
    fence. *)
Theorem cursor_stays_in_range (lines : list string) (i : nat) (line : string) :
  nth_error lines i = Some line ->
  (forall out n, MdToDocx.step lines i = Ok (out, n) -> n <= length lines) /\
  snd (ToWord.step lines i) <= S (length lines) /\
  (startswith "```" line = false ->
   snd (ToWord.step lines i) <= length lines).
Proof.
  intros Hline.
  assert (Hi : i < length lines) by (apply nth_error_Some; congruence).
  split; [|split].
  - intros out n. unfold MdToDocx.step. rewrite Hline.
    unfold MdToDocx.classify, MdToDocx.add_table_to_doc.
    pose proof (md_parse_table_le lines i (Nat.lt_le_incl _ _ Hi)) as Hle.
    split_chain; cbn [snd] in *; intros [= <- <-]; lia.
  - unfold ToWord.step. rewrite Hline. unfold ToWord.classify.
    pose proof (tw_collect_code_le (skipn (S i) lines) [] (S i)) as Hc.
    pose proof (tw_collect_table_le (skipn (S i) lines) [line] (S i)) as Ht.
    rewrite length_skipn in Hc, Ht.
    split_chain; cbn [snd] in *; lia.
  - intros Hnf. unfold ToWord.step. rewrite Hline. unfold ToWord.classify.
    rewrite Hnf.
    pose proof (tw_collect_table_le (skipn (S i) lines) [line] (S i)) as Ht.
    rewrite length_skipn in Ht.
    split_chain; cbn [snd] in *; lia.
Qed.

Lemma cursor_stays_in_range_witness :
  3 <= 3 /\
  snd (ToWord.step ["```"; "x"] 0) <= 3.
Proof.
  split.
  - apply (proj1 (cursor_stays_in_range ["| A |"; "---"; "| 1 |"] 0 "| A |"
                    eq_refl) [Table ["A"] [["1"]]] 3).
    reflexivity.
  - apply (cursor_stays_in_range ["```"; "x"] 0 "```"). reflexivity.
Defined.

Section Appending.

Lemma md_scan_appends (lines : list string) :
  forall fuel i doc d,
    MdToDocx.scan fuel lines i doc = Some (Ok d) ->
    exists out, d = doc ++ out /\ length out <= length lines - i.
Proof.
  induction fuel as [|fuel IH]; intros i doc d; cbn [MdToDocx.scan];
    destruct (Nat.leb_spec (length lines) i) as [Hge|Hlt];
    try discriminate;
    try (intros [= <-]; exists []; rewrite app_nil_r; split; [easy|cbn; lia]).
  pose proof (md_step_at_most_one lines i) as Hone.
  destruct (MdToDocx.step lines i) as [[o i']|] eqn:E; [|discriminate].
  pose proof (md_step_advances lines i o i' Hlt E) as Hadv.
  cbn [MdToDocx.calls] in Hone.
  intros Hscan. destruct (IH _ _ _ Hscan) as (out & -> & Hlen).
  exists (o ++ out). rewrite app_assoc. split; [reflexivity|].
  rewrite length_app. lia.
Qed.

Lemma tw_scan_appends (lines : list string) :
  forall fuel i doc d,
    ToWord.scan fuel lines i doc = Some d ->
    exists out, d = doc ++ out /\ length out <= length lines - i.
Proof.
  induction fuel as [|fuel IH]; intros i doc d; cbn [ToWord.scan];
    destruct (Nat.leb_spec (length lines) i) as [Hge|Hlt];
    try discriminate;
    try (intros [= <-]; exists []; rewrite app_nil_r; split; [easy|cbn; lia]).
  pose proof (tw_step_advances lines i Hlt) as Hadv.
  pose proof (tw_step_at_most_one lines i) as Hone.
  destruct (ToWord.step lines i) as [o i']. cbn [fst snd] in *.
  intros Hscan. destruct (IH _ _ _ Hscan) as (out & -> & Hlen).
  exists (o ++ out). rewrite app_assoc. split; [reflexivity|].
  rewrite length_app. lia.
Qed.

End Appending.

(** X4.  The loops only append.  Whatever the document holds when the
    loop starts at line [i] is still there, in front, when the loop
    returns, and the loop adds at most one call for each line from [i]
    on. *)
Theorem scan_only_appends (lines : list string) (fuel i : nat)
    (doc : list command) :
  (forall d, MdToDocx.scan fuel lines i doc = Some (Ok d) ->
     exists out, d = doc ++ out /\ length out <= length lines - i) /\
  (forall d, ToWord.scan fuel lines i doc = Some d ->
     exists out, d = doc ++ out /\ length out <= length lines - i).
Proof.
  split; intros d; [apply md_scan_appends|apply tw_scan_appends].
Qed.

Lemma scan_only_appends_witness :
  exists out,
    [Spacer; Heading "a" 1; Paragraph "b" false false] = [Spacer] ++ out /\
    length out <= 3 - 0.
Proof.
  apply (proj1 (scan_only_appends ["# a"; ""; "b"] 3 0 [Spacer])).
  reflexivity.
Defined.

Section BlankInput.

Variable lines : list string.
Hypothesis all_blank :
  forallb (fun l => negb (truthy (strip l))) lines = true.

Lemma blank_at (i : nat) :
  i < length lines ->
  exists line, nth_error lines i = Some line /\ truthy (strip line) = false.
Proof.
  intros Hi. destruct (nth_error lines i) as [line|] eqn:Hl.
  - exists line. split; [reflexivity|].
    apply nth_error_In in Hl.
    pose proof (proj1 (forallb_forall _ _) all_blank line Hl) as Hb.
    now apply negb_true_iff in Hb.
  - apply nth_error_None in Hl. lia.
Qed.

Lemma md_scan_blank :
  forall fuel i doc, length lines - i <= fuel ->
  MdToDocx.scan fuel lines i doc = Some (Ok doc).
Proof.
  induction fuel as [|fuel IH]; intros i doc Hf; cbn [MdToDocx.scan];
    destruct (Nat.leb_spec (length lines) i) as [Hge|Hlt];
    try reflexivity; [lia|].
  destruct (blank_at i Hlt) as (line & Hl & Hb).
  rewrite (proj1 (blank_steps lines i line Hl Hb)), app_nil_r.
  apply IH. lia.
Qed.

Lemma tw_scan_blank :
  forall fuel i doc, length lines - i <= fuel ->
  ToWord.scan fuel lines i doc = Some doc.
Proof.
  induction fuel as [|fuel IH]; intros i doc Hf; cbn [ToWord.scan];
    destruct (Nat.leb_spec (length lines) i) as [Hge|Hlt];
    try reflexivity; [lia|].
  destruct (blank_at i Hlt) as (line & Hl & Hb).
  rewrite (proj2 (blank_steps lines i line Hl Hb)), app_nil_r.
  apply IH. lia.
Qed.

End BlankInput.

(** X6.  A text with nothing but whitespace on every line, the empty
    text included, gives a document holding the title alone in
    convert_md_to_docx.py and an empty document in convert_to_word.py. *)
Theorem blank_text_gives_no_content (content : string) :
  forallb (fun l => negb (truthy (strip l))) (split LF content) = true ->
  MdToDocx.markdown_to_docx content
    = Some (Ok [Heading MdToDocx.title 0]) /\
  ToWord.markdown_to_docx content = Some [].
Proof.
  intros Hb. unfold MdToDocx.markdown_to_docx, ToWord.markdown_to_docx.
  split; [apply (md_scan_blank _ Hb)|apply (tw_scan_blank _ Hb)]; lia.
Qed.

Lemma blank_text_gives_no_content_witness :
  MdToDocx.markdown_to_docx "" = Some (Ok [Heading MdToDocx.title 0]) /\
  ToWord.markdown_to_docx "" = Some [].
Proof. apply (blank_text_gives_no_content ""). reflexivity. Defined.

Section Trimmed.

Lemma rstrip_idempotent (s : string) : rstrip (rstrip s) = rstrip s.
Proof.
  induction s as [|c r IH]; [reflexivity|]. cbn [rstrip].
  destruct (is_space c && negb (truthy (rstrip r))) eqn:E; [reflexivity|].
  cbn [rstrip]. now rewrite IH, E.
Qed.

Lemma lstrip_first_visible (s : string) (c : ascii) :
  first_char (lstrip s) = Some c -> is_space c = false.
Proof.
  induction s as [|x r IH]; cbn [lstrip]; [discriminate|].
  destruct (is_space x) eqn:E; [exact IH|].
  cbn [first_char]. now intros [= <-].
Qed.

Lemma lstrip_strip (s : string) : lstrip (strip s) = strip s.
Proof.
  unfold strip. destruct (lstrip s) as [|c r] eqn:E; [reflexivity|].
  assert (Hc : is_space c = false)
    by (apply (lstrip_first_visible s); now rewrite E).
  cbn [rstrip]. rewrite Hc. cbn [andb lstrip]. now rewrite Hc.
Qed.

(** Trimming twice is trimming once. *)
Lemma strip_idempotent (s : string) : strip (strip s) = strip s.
Proof.
  unfold strip at 1. rewrite lstrip_strip. unfold strip.
  apply rstrip_idempotent.
Qed.

End Trimmed.

Section Removal.

(** Deleting matches never brings in a character. *)
Lemma remove_from_keeps_absent (p : string) (d : ascii) (s : string) :
  has_char d s = false ->
  forall k, has_char d (remove_from p k s) = false.
Proof.
  induction s as [|x r IH]; [easy|]. cbn [has_char]. intros H k.
  apply orb_false_iff in H as [Hx Hr]. cbn [remove_from].
  destruct k as [|k]; [|now apply IH].
  destruct (startswith p (String x r)); [now apply IH|].
  cbn [has_char]. now rewrite Hx, IH.
Qed.

(** Deleting a one-character pattern leaves no occurrence of it. *)
Lemma remove_char_gone (c : ascii) (s : string) :
  has_char c (remove (String c EmptyString) s) = false.
Proof.
  unfold remove. induction s as [|x r IH]; [reflexivity|].
  cbn [remove_from startswith String.length Nat.sub].
  rewrite andb_true_r. destruct (Ascii.eqb c x) eqn:E; [exact IH|].
  cbn [has_char]. now rewrite E, IH.
Qed.

Lemma remove_stars_unfold (c : ascii) (r : string) :
  remove "**" (String c r)
  = if startswith "**" (String c r)
    then remove "**" (drop 1 r)
    else String c (remove "**" r).
Proof.
  unfold remove. cbn [remove_from String.length Nat.sub].
  destruct (startswith "**" (String c r)) eqn:E; [|reflexivity].
  destruct r as [|y r]; [|reflexivity].
  cbn [startswith] in E. now rewrite andb_false_r in E.
Qed.

Lemma remove_stars_first (s : string) :
  startswith "*" s = false -> startswith "*" (remove "**" s) = false.
Proof.
  destruct s as [|c r]; [easy|]. intros H. rewrite remove_stars_unfold.
  cbn [startswith] in *. rewrite andb_true_r in H.
  rewrite H. cbn [andb]. now rewrite H.
Qed.

(** After deleting every pair of asterisks from left to right, no pair
    is left. *)
Lemma remove_stars_gone (s : string) :
  has_sub "**" (remove "**" s) = false.
Proof.
  remember (String.length s) as n eqn:Hn.
  revert s Hn. induction n as [n IH] using lt_wf_ind. intros s Hn.
  destruct s as [|c r]; [reflexivity|].
  rewrite remove_stars_unfold.
  destruct (startswith "**" (String c r)) eqn:E.
  - destruct r as [|y r]; [cbn in E; now rewrite andb_false_r in E|].
    cbn [drop]. apply (IH (String.length r)); [|reflexivity].
    subst n. cbn [String.length]. lia.
  - cbn [has_sub]. rewrite (IH (String.length r) ltac:(subst n; cbn; lia) r
                              eq_refl), orb_false_r.
    cbn [startswith] in *.
    destruct (Ascii.eqb "*" c) eqn:Ec; [|reflexivity].
    cbn [andb] in *.
    assert (Hr : startswith "*" r = false).
    { destruct r as [|y r]; [reflexivity|]. cbn [startswith] in *.
      exact E. }
    apply remove_stars_first in Hr.
    destruct (remove "**" r) as [|z t]; [reflexivity|].
    cbn [startswith] in *. now rewrite andb_true_r in *.
Qed.

End Removal.

(** A command found in the output of a branch. *)
Ltac emitted H :=
  cbn [MdToDocx.calls fst In] in H;
  repeat match type of H with _ \/ _ => destruct H as [H|H] end;
  try contradiction; try discriminate.

(** X7.  Every heading either scanner emits from a line has a level from
    1 to 4 and a text free of surrounding whitespace. *)
Theorem headings_are_trimmed (lines : list string) (i : nat)
    (text : string) (level : nat) :
  (In (Heading text level) (MdToDocx.calls (MdToDocx.step lines i)) ->
   1 <= level <= 4 /\ strip text = text) /\
  (In (Heading text level) (fst (ToWord.step lines i)) ->
   1 <= level <= 4 /\ strip text = text).
Proof.
  split.
  - unfold MdToDocx.step. destruct (nth_error lines i); [|intros []].
    unfold MdToDocx.classify, MdToDocx.add_table_to_doc.
    split_chain; intros H; emitted H; injection H as <- <-;
      (split; [lia|apply strip_idempotent]).
  - unfold ToWord.step. destruct (nth_error lines i); [|intros []].
    unfold ToWord.classify, ToWord.add_table_from_markdown.
    split_chain; intros H; emitted H; injection H as <- <-;
      (split; [lia|apply strip_idempotent]).
Qed.

Lemma headings_are_trimmed_witness :
  1 <= 3 <= 4 /\ strip "Deep  dive" = "Deep  dive".
Proof.
  apply (proj1 (headings_are_trimmed ["###   Deep  dive  "] 0
                  "Deep  dive" 3)).
  left. reflexivity.
Defined.

(** X8.  A paragraph that is not bold always has visible content and is
    never italic, in both scripts; in convert_to_word.py its text is
    moreover free of surrounding whitespace. *)
Theorem plain_paragraphs_have_content (lines : list string) (i : nat)
    (text : string) (italic : bool) :
  (In (Paragraph text false italic) (MdToDocx.calls (MdToDocx.step lines i)) ->
   truthy (strip text) = true /\ italic = false) /\
  (In (Paragraph text false italic) (fst (ToWord.step lines i)) ->
   truthy text = true /\ strip text = text /\ italic = false).
Proof.
  split.
  - unfold MdToDocx.step. destruct (nth_error lines i); [|intros []].
    unfold MdToDocx.classify, MdToDocx.add_table_to_doc.
    split_chain; intros H; emitted H; injection H as <- <-.
    split; [assumption|reflexivity].
  - unfold ToWord.step. destruct (nth_error lines i); [|intros []].
    unfold ToWord.classify, ToWord.add_table_from_markdown.
    split_chain; intros H; emitted H; injection H as <- <-.
    repeat split; [assumption|apply strip_idempotent].
Qed.

Lemma plain_paragraphs_have_content_witness :
  truthy (strip " some text ") = true /\ false = false.
Proof.
  apply (proj1 (plain_paragraphs_have_content [" some text "] 0
                  " some text " false)).
  left. reflexivity.
Defined.

(** X9.  In convert_md_to_docx.py the text of a paragraph that is not
    bold holds no backtick and no underscore. *)
Theorem md_paragraph_text_clean (lines : list string) (i : nat)
    (text : string) (italic : bool) :
  In (Paragraph text false italic) (MdToDocx.calls (MdToDocx.step lines i)) ->
  has_char "`" text = false /\ has_char "_" text = false.
Proof.
  unfold MdToDocx.step. destruct (nth_error lines i); [|intros []].
  unfold MdToDocx.classify, MdToDocx.add_table_to_doc.
  split_chain; intros H; emitted H; injection H as <- <-.
  split; [|apply remove_char_gone].
  apply remove_from_keeps_absent, remove_char_gone.
Qed.

Lemma md_paragraph_text_clean_witness :
  has_char "`" "run makeall now" = false /\
  has_char "_" "run makeall now" = false.
Proof.
  apply (md_paragraph_text_clean ["run `make_all` now"] 0
           "run makeall now" false).
  left. reflexivity.
Defined.

(** X10.  In convert_md_to_docx.py the text of a bold paragraph holds no
    pair of asterisks. *)
Theorem md_bold_text_has_no_marker (lines : list string) (i : nat)
    (text : string) (italic : bool) :
  In (Paragraph text true italic) (MdToDocx.calls (MdToDocx.step lines i)) ->
  has_sub "**" text = false.
Proof.
  unfold MdToDocx.step. destruct (nth_error lines i); [|intros []].
  unfold MdToDocx.classify, MdToDocx.add_table_to_doc.
  split_chain; intros H; emitted H; injection H as <- <-.
  apply remove_stars_gone.
Qed.

Lemma md_bold_text_has_no_marker_witness :
  has_sub "**" "Note: *keep" = false.
Proof.
  apply (md_bold_text_has_no_marker ["**Note:** ***keep**"] 0
           "Note: *keep" false).
  left. reflexivity.
Defined.

Section TableInvariants.

Lemma md_parse_rows_filled (rest : list string) :
  forall rows idx,
    Forall (fun r => any_truthy r = true) rows ->
    Forall (fun r => any_truthy r = true)
           (fst (MdToDocx.parse_rows rest rows idx)).
Proof.
  induction rest as [|l rest IH]; intros rows idx Hrows;
    cbn [MdToDocx.parse_rows fst]; [exact Hrows|].
  destruct (has_char "|" l); [|exact Hrows].
  destruct (negb (truthy (strip l)) || startswith "#" (strip l));
    [exact Hrows|].
  apply IH. rewrite any_truthy_nonempty.
  destruct (any_truthy (cells (strip l))) eqn:E; [|exact Hrows].
  apply Forall_app. split; [exact Hrows|]. now constructor.
Qed.

Lemma md_parse_table_result (lines : list string) (i : nat)
    (h : list string) (rows : list (list string)) (n : nat) :
  MdToDocx.parse_table lines i = (h, rows, n) ->
  Forall (fun r => any_truthy r = true) rows /\
  (h <> [] -> exists line, nth_error lines i = Some line /\ h = cells line).
Proof.
  unfold MdToDocx.parse_table.
  destruct (nth_error lines i) as [l|];
    [|intros [= <- <- <-]; split; [constructor|congruence]].
  destruct (has_char "|" l);
    [|intros [= <- <- <-]; split; [constructor|congruence]].
  match goal with
  | |- context [MdToDocx.parse_rows ?r [] ?j] =>
      pose proof (md_parse_rows_filled r [] j (Forall_nil _)) as Hf;
      destruct (MdToDocx.parse_rows r [] j) as [rs k]
  end.
  cbn [fst] in Hf. intros [= <- <- <-]. split; [exact Hf|].
  intros _. exists l. split; [reflexivity|apply cells_strip].
Qed.

Lemma tw_table_rows_width (h : list string) (ls : list string) :
  Forall (fun r => length r = length h) (ToWord.table_rows h ls).
Proof.
  induction ls as [|l ls IH]; cbn [ToWord.table_rows]; [constructor|].
  destruct (truthy (strip l) && has_char "|" l); [|exact IH].
  destruct (Nat.eqb_spec (length (cells l)) (length h)); [|exact IH].
  now constructor.
Qed.

End TableInvariants.

(** X11.  Every table convert_md_to_docx.py emits has at least one
    header and at least one row, each of its rows has a non-empty cell,
    and its headers are the cells of the line the cursor was on. *)
Theorem md_tables_are_filled (lines : list string) (i : nat)
    (headers : list string) (rows : list (list string)) :
  In (Table headers rows) (MdToDocx.calls (MdToDocx.step lines i)) ->
  headers <> [] /\ rows <> [] /\
  Forall (fun r => any_truthy r = true) rows /\
  exists line, nth_error lines i = Some line /\ headers = cells line.
Proof.
  unfold MdToDocx.step.
  destruct (nth_error lines i) as [line|] eqn:Hline; [|intros []].
  unfold MdToDocx.classify, MdToDocx.add_table_to_doc.
  split_chain; intros H; emitted H; injection H as <- <-.
  match goal with
  | E : MdToDocx.parse_table _ _ = _ |- _ =>
      destruct (md_parse_table_result _ _ _ _ _ E) as [Hf Hh]
  end.
  match goal with
  | E : nonempty ?h && nonempty ?r = true |- _ =>
      apply andb_true_iff in E as [Eh Er];
      assert (Hne : h <> []) by (intros ->; discriminate Eh);
      assert (Hnr : r <> []) by (intros ->; discriminate Er)
  end.
  split; [exact Hne|]. split; [exact Hnr|]. split; [exact Hf|].
  destruct (Hh Hne) as (l & Hl & ->). exists l.
  split; [congruence|reflexivity].
Qed.

Lemma md_tables_are_filled_witness :
  ["A"; "B"] <> [] /\ [["1"; ""]] <> [] /\
  Forall (fun r => any_truthy r = true) [["1"; ""]] /\
  exists line,
    nth_error ["| A | B |"; "|---|---|"; "| 1 | |"; "| | |"] 0 = Some line /\
    ["A"; "B"] = cells line.
Proof.
  apply (md_tables_are_filled
           ["| A | B |"; "|---|---|"; "| 1 | |"; "| | |"] 0).
  left. reflexivity.
Defined.

(** X12.  Every table convert_to_word.py emits is rectangular: each row
    has exactly as many cells as the header. *)
Theorem tw_tables_are_rectangular (lines : list string) (i : nat)
    (headers : list string) (rows : list (list string)) :
  In (Table headers rows) (fst (ToWord.step lines i)) ->
  Forall (fun r => length r = length headers) rows.
Proof.
  unfold ToWord.step. destruct (nth_error lines i); [|intros []].
  unfold ToWord.classify, ToWord.add_table_from_markdown.
  split_chain; intros H; emitted H; injection H as <- <-.
  apply tw_table_rows_width.
Qed.

Lemma tw_tables_are_rectangular_witness :
  Forall (fun r => length r = length ["A"; "B"]) [["1"; "2"]].
Proof.
  apply (tw_tables_are_rectangular
           ["| A | B |"; "|---|---|"; "| 1 | 2 |"; "| 3 |"] 0).
  left. reflexivity.
Defined.

(** X13.  convert_to_word.py drops every line that starts with '#' and
    is not one of the four heading forms, such as a heading of level five
    or a hash tag: nothing is emitted for it. *)
Theorem tw_hash_lines_dropped (lines : list string) (i : nat)
    (line : string) :
  nth_error lines i = Some line ->
  startswith "#" line = true ->
  heading_prefix line = false ->
  ToWord.step lines i = ([], S i).
Proof.
  intros Hline Hhash Hhead. unfold heading_prefix in Hhead.
  repeat (apply orb_false_iff in Hhead as [Hhead ?]).
  unfold ToWord.step. rewrite Hline. unfold ToWord.classify.
  repeat match goal with H : startswith _ line = false |- _ =>
           rewrite H; clear H end.
  pose proof (startswith_first_char _ _ _ Hhash) as Hfc.
  pose proof (first_char_strip _ _ Hfc eq_refl) as Hfs.
  rewrite (first_char_startswith_false "`" "#" _ _ Hfc) by discriminate.
  rewrite (first_char_startswith_false "|" "#" _ _ Hfs) by discriminate.
  rewrite (first_char_startswith_false "*" "#" _ _ Hfs) by discriminate.
  rewrite (first_char_startswith_false "-" "#" _ _ Hfs) by discriminate.
  rewrite Hhash, (truthy_first_char _ _ Hfs). reflexivity.
Qed.

Lemma tw_hash_lines_dropped_witness :
  ToWord.step ["##### Level five"] 0 = ([], 1).
Proof.
  apply (tw_hash_lines_dropped ["##### Level five"] 0 "##### Level five");
    reflexivity.
Defined.

(** X14.  In convert_md_to_docx.py a line that holds a pipe and is not a
    heading never becomes a paragraph: the only thing its step can emit
    is a table.  When the line holds a single pipe it has no cell between
    pipes, so nothing at all is emitted. *)
Theorem md_pipe_lines_only_tables (lines : list string) (i : nat)
    (line : string) :
  nth_error lines i = Some line ->
  has_char "|" line = true ->
  heading_prefix line = false ->
  (forall c, In c (MdToDocx.calls (MdToDocx.step lines i)) ->
     exists headers rows, c = Table headers rows) /\
  (count_char "|" line = 1 ->
   exists n, MdToDocx.step lines i = Ok ([], n)).
Proof.
  intros Hline Hp Hhead. unfold heading_prefix in Hhead.
  repeat (apply orb_false_iff in Hhead as [Hhead ?]).
  unfold MdToDocx.step. rewrite Hline. unfold MdToDocx.classify.
  rewrite (truthy_strip_visible "|" eq_refl line Hp). cbn [negb].
  repeat match goal with H : startswith _ line = false |- _ =>
           rewrite H; clear H end.
  rewrite Hp. unfold MdToDocx.add_table_to_doc.
  destruct (MdToDocx.parse_table lines i) as [[h r] n] eqn:E.
  destruct (md_parse_table_result _ _ _ _ _ E) as [_ Hh].
  split.
  - split_chain; intros c Hc; emitted Hc. subst c. eauto.
  - intros Hone.
    destruct h as [|x h]; [cbn [nonempty andb]; eauto|].
    destruct Hh as (l & Hl & Hcells); [discriminate|].
    assert (l = line) by congruence. subst l.
    pose proof (cells_length line) as Hlen.
    rewrite <- Hcells, Hone in Hlen. discriminate Hlen.
Qed.

Lemma md_pipe_lines_only_tables_witness :
  exists n,
    MdToDocx.step ["either this | or that"; "next"] 0 = Ok ([], n).
Proof.
  apply (md_pipe_lines_only_tables ["either this | or that"; "next"] 0
           "either this | or that"); reflexivity.
Defined.

(** X15.  In convert_md_to_docx.py any line that starts with three
    hyphens and holds no pipe yields exactly one [Spacer], whatever
    follows the hyphens on the line. *)
Theorem md_rule_prefix_lines (lines : list string) (i : nat) (line : string) :
  nth_error lines i = Some line ->
  startswith "---" line = true ->
  has_char "|" line = false ->
  MdToDocx.step lines i = Ok ([Spacer], S i).
Proof.
  intros Hline Hrule Hp.
  unfold MdToDocx.step. rewrite Hline. unfold MdToDocx.classify.
  pose proof (startswith_first_char _ _ _ Hrule) as Hfc.
  pose proof (first_char_strip _ _ Hfc eq_refl) as Hfs.
  rewrite (truthy_first_char _ _ Hfs).
  rewrite !(first_char_startswith_false "#" "-" _ _ Hfc) by discriminate.
  rewrite (first_char_startswith_false "*" "-" _ _ Hfc) by discriminate.
  now rewrite Hp, Hrule.
Qed.

Lemma md_rule_prefix_lines_witness :
  MdToDocx.step ["--- end of part one ---"] 0 = Ok ([Spacer], 1).
Proof.
  apply (md_rule_prefix_lines ["--- end of part one ---"] 0
           "--- end of part one ---"); reflexivity.
Defined.

Section RoundTrips.

Lemma join_cons_char (sep : string) (x : ascii) (w : string)
    (ws : list string) :
  join sep (String x w :: ws) = String x (join sep (w :: ws)).
Proof. destruct ws; reflexivity. Qed.

Lemma join_split (c : ascii) (s : string) :
  join (String c EmptyString) (split c s) = s.
Proof.
  induction s as [|x r IH]; [reflexivity|]. cbn [split].
  pose proof (split_nonempty c r) as Hne.
  destruct (Ascii.eqb_spec c x) as [->|Hneq].
  - destruct (split x r) as [|w ws]; [contradiction|].
    change (join (String x "") ("" :: w :: ws))
      with (String x (join (String x "") (w :: ws))).
    now rewrite IH.
  - destruct (split c r) as [|w ws]; [contradiction|].
    now rewrite join_cons_char, IH.
Qed.

Lemma split_pieces (c : ascii) (s : string) :
  forallb (fun x => negb (has_char c x)) (split c s) = true.
Proof.
  induction s as [|x r IH]; [reflexivity|]. cbn [split].
  destruct (Ascii.eqb c x) eqn:E; [exact IH|].
  destruct (split c r) as [|w ws]; [cbn; now rewrite E|].
  cbn [forallb has_char] in *. now rewrite E.
Qed.

End RoundTrips.

(** X16.  Cutting the text into lines loses nothing: joining the lines
    of [content.split('\n')] with line feeds gives the text back, no line
    holds a line feed, and cutting a joined list of such lines gives the
    list back. *)
Theorem lines_round_trip (content : string) (lines : list string) :
  join nl (split LF content) = content /\
  forallb no_lf (split LF content) = true /\
  (lines <> [] -> forallb no_lf lines = true ->
   split LF (join nl lines) = lines).
Proof.
  split; [apply join_split|]. split; [apply split_pieces|].
  intros Hne Hlf. now apply split_join.
Qed.

Lemma lines_round_trip_witness :
  split LF (join nl ["# T"; ""; "text"]) = ["# T"; ""; "text"].
Proof.
  apply (lines_round_trip "" ["# T"; ""; "text"]);
    [discriminate|reflexivity].
Defined.

(** X17.  The cells of a table line are trimmed, and they do not depend
    on whitespace around the line: [parse_table], which trims the line
    before splitting it, and [add_table_from_markdown], which does not,
    read the same cells. *)
Theorem cells_are_trimmed (line : string) :
  Forall (fun c => strip c = c) (cells line) /\
  cells (strip line) = cells line.
Proof.
  split; [|apply cells_strip].
  unfold cells. apply Forall_forall. intros c Hc.
  apply in_map_iff in Hc as (x & <- & _). apply strip_idempotent.
Qed.

(** X18.  Reading a written row gives its cells back: a line made of a
    pipe, the cells separated by pipes, and a closing pipe is read as
    those cells, trimmed, when no cell holds a pipe. *)
Theorem cells_round_trip (cs : list string) :
  cs <> [] ->
  forallb (fun c => negb (has_char "|" c)) cs = true ->
  cells (String "|" (join "|" cs ++ "|")) = map strip cs.
Proof.
  intros Hne Hcs. unfold cells. f_equal.
  cbn [split]. rewrite Ascii.eqb_refl.
  change "|"%string with (String "|" EmptyString) at 2.
  rewrite (split_app_last "|" (join "|" cs) "" eq_refl).
  rewrite (split_join "|" cs Hne Hcs).
  unfold inner. cbn [tl]. apply removelast_last.
Qed.

Lemma cells_round_trip_witness :
  cells "| name | value |" = ["name"; "value"].
Proof.
  apply (cells_round_trip [" name "; " value "]);
    [discriminate|reflexivity].
Defined.

Section Agreement.

Lemma filter_all {A} (P : A -> bool) (l : list A) :
  forallb P l = true -> filter P l = l.
Proof.
  induction l as [|x l IH]; [reflexivity|]. cbn [forallb filter].
  intros H. apply andb_true_iff in H as [Hx Hl]. now rewrite Hx, IH.
Qed.

Lemma forallb_existsb {A} (P : A -> bool) (l : list A) :
  l <> [] -> forallb P l = true -> existsb P l = true.
Proof.
  destruct l as [|x l]; [contradiction|]. cbn [forallb existsb].
  intros _ H. apply andb_true_iff in H as [Hx _]. now rewrite Hx.
Qed.

End Agreement.

(** X19.  On a table block as in C4 whose data lines all have as many
    cells as the header and all have a non-empty cell, the two scripts
    emit the same table: the cells of the header and the cells of every
    data line, in order. *)
Theorem scripts_agree_on_regular_tables (pre : list string)
    (header sep : string) (data post : list string) :
  pipe_line header = true ->
  pipe_line sep = true ->
  has_sub "---" sep = true ->
  forallb pipe_line data = true ->
  data <> [] ->
  ends_with (has_char "|") post = true ->
  forallb no_lf (header :: sep :: data) = true ->
  nonempty (cells header) = true ->
  forallb qualifying data = true ->
  forallb (same_width header) data = true ->
  MdToDocx.step (pre ++ header :: sep :: data ++ post) (length pre)
    = Ok ([Table (cells header) (map cells data)],
          length pre + 2 + length data) /\
  MdToDocx.step (pre ++ header :: sep :: data ++ post) (length pre)
    = Ok (ToWord.step (pre ++ header :: sep :: data ++ post) (length pre)).
Proof.
  intros Hh Hs Hsep Hdata Hne Hpost Hlf Hcells Hq Hw.
  destruct (block_table_steps pre header sep data post
              Hh Hs Hsep Hdata Hne Hpost Hlf) as [Hmd Htw].
  rewrite Htw, (Hmd Hcells (forallb_existsb _ _ Hne Hq)).
  rewrite !filter_all by assumption.
  assert (Hfit : forallb (not_wider header) data = true).
  { apply forallb_forall. intros d Hd.
    pose proof (proj1 (forallb_forall _ _) Hw d Hd) as Hsame.
    unfold same_width in Hsame. apply Nat.eqb_eq in Hsame.
    unfold not_wider. apply Nat.leb_le. lia. }
  now rewrite Hfit.
Qed.

Lemma scripts_agree_on_regular_tables_witness :
  MdToDocx.step ["| A | B |"; "|---|---|"; "| 1 | 2 |"; "| 3 | |"; "end"] 0
    = Ok ([Table ["A"; "B"] [["1"; "2"]; ["3"; ""]]], 4) /\
  MdToDocx.step ["| A | B |"; "|---|---|"; "| 1 | 2 |"; "| 3 | |"; "end"] 0
    = Ok (ToWord.step
            ["| A | B |"; "|---|---|"; "| 1 | 2 |"; "| 3 | |"; "end"] 0).
Proof.
  apply (scripts_agree_on_regular_tables [] "| A | B |" "|---|---|"
           ["| 1 | 2 |"; "| 3 | |"] ["end"]);
    try reflexivity; discriminate.
Defined.

(** X20.  The contract of [parse_table].  Where there is no line at
    [start_idx], or the line holds no pipe, it returns no headers, no
    rows and [start_idx] itself.  Otherwise the headers are the cells of
    that line, every row returned has a non-empty cell, and the index
    returned is past [start_idx] and at most the number of lines. *)
Theorem parse_table_contract (lines : list string) (start_idx : nat) :
  match nth_error lines start_idx with
  | Some l =>
      if has_char "|" l
      then fst (fst (MdToDocx.parse_table lines start_idx)) = cells l /\
           Forall (fun r => any_truthy r = true)
                  (snd (fst (MdToDocx.parse_table lines start_idx))) /\
           start_idx < snd (MdToDocx.parse_table lines start_idx)
             <= length lines
      else MdToDocx.parse_table lines start_idx = ([], [], start_idx)
  | None => MdToDocx.parse_table lines start_idx = ([], [], start_idx)
  end.
Proof.
  destruct (nth_error lines start_idx) as [l|] eqn:Hl.
  2:{ unfold MdToDocx.parse_table. now rewrite Hl. }
  destruct (has_char "|" l) eqn:Hp.
  2:{ unfold MdToDocx.parse_table. now rewrite Hl, Hp. }
  assert (Hlt : start_idx < length lines)
    by (apply nth_error_Some; congruence).
  pose proof (md_parse_table_gt lines start_idx l Hl Hp) as Hgt.
  pose proof (md_parse_table_le lines start_idx (Nat.lt_le_incl _ _ Hlt))
    as Hle.
  destruct (MdToDocx.parse_table lines start_idx) as [[h r] n] eqn:E.
  destruct (md_parse_table_result _ _ _ _ _ E) as [Hf _].
  cbn [fst snd] in *. repeat split; try assumption.
  unfold MdToDocx.parse_table in E. rewrite Hl, Hp in E.
  destruct (MdToDocx.parse_rows _ _ _) in E. injection E as <- _ _.
  apply cells_strip.
Qed.

Section BoldMarkers.

Lemma rev_onto_acc (s acc : string) :
  rev_onto s acc = (rev_onto s EmptyString ++ acc)%string.
Proof.
  revert acc. induction s as [|c r IH]; intros acc; [reflexivity|].
  cbn [rev_onto]. rewrite (IH (String c acc)), (IH (String c EmptyString)).
  generalize (rev_onto r ""). intros t.
  induction t as [|x t IHt]; [reflexivity|].
  cbn [String.append]. now rewrite IHt.
Qed.

Lemma reverse_app (a b : string) :
  reverse (a ++ b) = (reverse b ++ reverse a)%string.
Proof.
  unfold reverse. generalize EmptyString at 1 3.
  induction a as [|c a IH]; intros acc; cbn [String.append rev_onto].
  - apply rev_onto_acc.
  - apply IH.
Qed.

Lemma startswith_app (p x : string) : startswith p (p ++ x) = true.
Proof.
  induction p as [|c p IH]; [reflexivity|].
  cbn [String.append startswith]. now rewrite Ascii.eqb_refl, IH.
Qed.

Lemma endswith_app (p a : string) : endswith p (a ++ p) = true.
Proof. unfold endswith. rewrite reverse_app. apply startswith_app. Qed.

Lemma string_length_app (a b : string) :
  String.length (a ++ b) = String.length a + String.length b.
Proof.
  induction a as [|c a IH]; [reflexivity|].
  cbn [String.append String.length]. now rewrite IH.
Qed.

Lemma take_app (m x : string) : take (String.length m) (m ++ x) = m.
Proof.
  induction m as [|c m IH]; [now destruct x|].
  cbn [String.length String.append take]. now rewrite IH.
Qed.

Lemma slice_between_markers (m : string) :
  slice_2_m2 ("**" ++ m ++ "**") = m.
Proof.
  unfold slice_2_m2. cbn [String.append String.length drop].
  rewrite string_length_app. cbn [String.length].
  replace (S (S (String.length m + 2)) - 2 - 2) with (String.length m)
    by lia.
  apply take_app.
Qed.

Lemma remove_stars_plain (m t : string) :
  has_char "*" m = false ->
  remove "**" (m ++ t) = (m ++ remove "**" t)%string.
Proof.
  induction m as [|c m IH]; [reflexivity|]. cbn [has_char]. intros H.
  apply orb_false_iff in H as [Hc Hm].
  cbn [String.append]. rewrite remove_stars_unfold.
  cbn [startswith]. rewrite Hc. cbn [andb]. now rewrite (IH Hm).
Qed.

Lemma append_empty_r (m : string) : (m ++ "")%string = m.
Proof.
  induction m as [|c m IH]; [reflexivity|].
  cbn [String.append]. now rewrite IH.
Qed.

Lemma tw_bold_step (lines : list string) (i : nat) (line : string) :
  nth_error lines i = Some line ->
  startswith "**" (strip line) = true ->
  endswith "**" (strip line) = true ->
  ToWord.step lines i
    = ([Paragraph (slice_2_m2 (strip line)) true false], S i).
Proof.
  intros Hline Hstart Hend.
  unfold ToWord.step. rewrite Hline. unfold ToWord.classify.
  pose proof (startswith_first_char _ _ _ Hstart) as Hfc.
  rewrite !(strip_first_char_excludes "#" "*" _ line Hfc)
    by (discriminate || reflexivity).
  rewrite (strip_first_char_excludes "`" "*" _ line Hfc)
    by (discriminate || reflexivity).
  rewrite (first_char_startswith_false "|" "*" _ _ Hfc) by discriminate.
  now rewrite Hstart, Hend.
Qed.

End BoldMarkers.

(** X21.  Wrapping a text in bold markers and scanning the line gives
    the text back in a bold paragraph.  convert_to_word.py does so for
    any text, looking at the trimmed line; convert_md_to_docx.py does so
    for a text with no asterisk and no pipe, on a line that starts with
    the marker. *)
Theorem bold_round_trip (lines : list string) (i : nat) (line m : string) :
  nth_error lines i = Some line ->
  (strip line = ("**" ++ m ++ "**")%string ->
   ToWord.step lines i = ([Paragraph m true false], S i)) /\
  (line = ("**" ++ m ++ "**")%string ->
   has_char "*" m = false ->
   has_char "|" m = false ->
   MdToDocx.step lines i = Ok ([Paragraph m true false], S i)).
Proof.
  intros Hline. split.
  - intros Hs.
    rewrite (tw_bold_step lines i line Hline); rewrite Hs.
    + now rewrite slice_between_markers.
    + reflexivity.
    + change ("**" ++ m ++ "**")%string with (("**" ++ m) ++ "**")%string.
      apply endswith_app.
  - intros -> Hstar Hpipe.
    unfold MdToDocx.step. rewrite Hline. unfold MdToDocx.classify.
    cbn [String.append]. rewrite strip_nonspace by reflexivity.
    cbn [truthy negb startswith Ascii.eqb Bool.eqb andb has_char orb].
    rewrite has_char_app, Hpipe. cbn [has_char Ascii.eqb Bool.eqb andb orb].
    rewrite remove_stars_unfold. cbn [startswith Ascii.eqb Bool.eqb andb drop].
    rewrite (remove_stars_plain m "**" Hstar).
    replace (remove "**" "**") with EmptyString by reflexivity.
    now rewrite append_empty_r.
Qed.

Lemma bold_round_trip_witness :
  ToWord.step ["  **Read *this* first**  "] 0
    = ([Paragraph "Read *this* first" true false], 1) /\
  MdToDocx.step ["**Read this first**"] 0
    = Ok ([Paragraph "Read this first" true false], 1).
Proof.
  split.
  - apply (bold_round_trip ["  **Read *this* first**  "] 0
             "  **Read *this* first**  " "Read *this* first");
      reflexivity.
  - apply (bold_round_trip ["**Read this first**"] 0
             "**Read this first**" "Read this first"); reflexivity.
Defined.

Section Locality.

Variable pre rest : list string.

Lemma nth_error_shift (j : nat) :
  nth_error (pre ++ rest) (length pre + j) = nth_error rest j.
Proof.
  rewrite nth_error_app2 by lia. f_equal. lia.
Qed.

Lemma skipn_shift (j : nat) :
  skipn (length pre + j) (pre ++ rest) = skipn j rest.
Proof.
  rewrite skipn_app, skipn_all2 by lia. cbn [app]. f_equal. lia.
Qed.

Lemma md_parse_rows_shift (a : nat) (ls : list string) :
  forall rows k,
    MdToDocx.parse_rows ls rows (a + k)
    = (fst (MdToDocx.parse_rows ls rows k),
       a + snd (MdToDocx.parse_rows ls rows k)).
Proof.
  induction ls as [|l ls IH]; intros rows k;
    cbn [MdToDocx.parse_rows fst snd]; [reflexivity|].
  destruct (has_char "|" l); [|reflexivity].
  destruct (negb (truthy (strip l)) || startswith "#" (strip l));
    [reflexivity|].
  rewrite <- IH. f_equal. lia.
Qed.

Lemma md_parse_table_shift (j : nat) :
  MdToDocx.parse_table (pre ++ rest) (length pre + j)
  = (fst (MdToDocx.parse_table rest j),
     length pre + snd (MdToDocx.parse_table rest j)).
Proof.
  unfold MdToDocx.parse_table. rewrite nth_error_shift.
  destruct (nth_error rest j) as [l|]; [|reflexivity].
  destruct (has_char "|" l); [|reflexivity].
  replace (S (length pre + j)) with (length pre + S j) by lia.
  rewrite nth_error_shift.
  assert (Hk : forall k,
    (let '(rows, idx) :=
       MdToDocx.parse_rows (skipn (length pre + k) (pre ++ rest)) []
                           (length pre + k) in
     (cells (strip l), rows, idx))
    = (fst (let '(rows, idx) := MdToDocx.parse_rows (skipn k rest) [] k in
            (cells (strip l), rows, idx)),
       length pre +
       snd (let '(rows, idx) := MdToDocx.parse_rows (skipn k rest) [] k in
            (cells (strip l), rows, idx)))).
  { intros k. rewrite skipn_shift, md_parse_rows_shift.
    destruct (MdToDocx.parse_rows (skipn k rest) [] k). reflexivity. }
  destruct (nth_error rest (S j)) as [sep|]; [|apply Hk].
  destruct (has_sub "---" sep); [|apply Hk].
  replace (S (length pre + S j)) with (length pre + S (S j)) by lia.
  apply Hk.
Qed.

Lemma tw_collect_code_shift (a : nat) (ls : list string) :
  forall acc k,
    ToWord.collect_code ls acc (a + k)
    = (fst (ToWord.collect_code ls acc k),
       a + snd (ToWord.collect_code ls acc k)).
Proof.
  induction ls as [|l ls IH]; intros acc k;
    cbn [ToWord.collect_code fst snd]; [reflexivity|].
  destruct (negb (startswith "```" l)); [|reflexivity].
  rewrite <- IH. f_equal. lia.
Qed.

Lemma tw_collect_table_shift (a : nat) (ls : list string) :
  forall acc k,
    ToWord.collect_table ls acc (a + k)
    = (fst (ToWord.collect_table ls acc k),
       a + snd (ToWord.collect_table ls acc k)).
Proof.
  induction ls as [|l ls IH]; intros acc k;
    cbn [ToWord.collect_table fst snd]; [reflexivity|].
  destruct (startswith "|" (strip l)); [|reflexivity].
  rewrite <- IH. f_equal. lia.
Qed.

Lemma md_step_shift (j : nat) :
  j < length rest ->
  MdToDocx.step (pre ++ rest) (length pre + j)
  = match MdToDocx.step rest j with
    | Ok (o, n) => Ok (o, length pre + n)
    | IndexError => IndexError
    end.
Proof.
  intros Hj. unfold MdToDocx.step. rewrite nth_error_shift.
  destruct (nth_error rest j) as [line|] eqn:Hl.
  2:{ apply nth_error_None in Hl. lia. }
  unfold MdToDocx.classify. rewrite md_parse_table_shift.
  destruct (MdToDocx.parse_table rest j) as [[h r] n].
  cbn [fst snd]. unfold MdToDocx.add_table_to_doc.
  split_chain; try reflexivity; do 2 f_equal; lia.
Qed.

Lemma tw_step_shift (j : nat) :
  j < length rest ->
  ToWord.step (pre ++ rest) (length pre + j)
  = (fst (ToWord.step rest j), length pre + snd (ToWord.step rest j)).
Proof.
  intros Hj. unfold ToWord.step. rewrite nth_error_shift.
  destruct (nth_error rest j) as [line|] eqn:Hl.
  2:{ apply nth_error_None in Hl. lia. }
  unfold ToWord.classify.
  replace (S (length pre + j)) with (length pre + S j) by lia.
  rewrite !skipn_shift, tw_collect_code_shift, tw_collect_table_shift.
  pose proof (tw_collect_table_ge (skipn (S j) rest) [line] (S j)) as Hge.
  destruct (ToWord.collect_code (skipn (S j) rest) [] (S j)) as [c n].
  destruct (ToWord.collect_table (skipn (S j) rest) [line] (S j)) as [t m].
  cbn [fst snd] in *.
  split_chain; cbn [fst snd]; f_equal; lia.
Qed.

Lemma md_scan_shift :
  forall fuel j doc,
    MdToDocx.scan fuel (pre ++ rest) (length pre + j) doc
    = MdToDocx.scan fuel rest j doc.
Proof.
  induction fuel as [|fuel IH]; intros j doc; cbn [MdToDocx.scan];
    rewrite length_app;
    destruct (Nat.leb_spec (length rest) j) as [Hge|Hlt];
    destruct (Nat.leb_spec (length pre + length rest) (length pre + j));
    try lia; try reflexivity.
  rewrite (md_step_shift j Hlt).
  destruct (MdToDocx.step rest j) as [[o n]|]; [apply IH|reflexivity].
Qed.

Lemma tw_scan_shift :
  forall fuel j doc,
    ToWord.scan fuel (pre ++ rest) (length pre + j) doc
    = ToWord.scan fuel rest j doc.
Proof.
  induction fuel as [|fuel IH]; intros j doc; cbn [ToWord.scan];
    rewrite length_app;
    destruct (Nat.leb_spec (length rest) j) as [Hge|Hlt];
    destruct (Nat.leb_spec (length pre + length rest) (length pre + j));
    try lia; try reflexivity.
  rewrite (tw_step_shift j Hlt).
  destruct (ToWord.step rest j) as [o n]. cbn [fst snd]. apply IH.
Qed.

End Locality.

(** X22.  The scanners keep no memory but the cursor: what the loop
    emits from a given line on does not depend on the lines before it.
    Scanning [pre ++ rest] from the first line of [rest] gives the same
    document as scanning [rest] alone from its start. *)
Theorem scan_ignores_consumed_lines (pre rest : list string)
    (fuel j : nat) (doc : list command) :
  MdToDocx.scan fuel (pre ++ rest) (length pre + j) doc
    = MdToDocx.scan fuel rest j doc /\
  ToWord.scan fuel (pre ++ rest) (length pre + j) doc
    = ToWord.scan fuel rest j doc.
Proof.
  split; [apply md_scan_shift|apply tw_scan_shift].
Qed.

(** * What convert_md_to_docx.py raises and what it skips *)

Section Raising.


End Raising.

(** X23.  A table row wider than the header makes convert_md_to_docx.py
    raise.  In a block as in C4 whose header has a cell, if some data
    line with a non-empty cell has more cells than the header, the step
    on the header raises IndexError, and so does the loop started
    there. *)
Theorem md_wide_row_raises (pre : list string) (header sep d : string)
    (data post : list string) :
  pipe_line header = true ->
  pipe_line sep = true ->
  has_sub "---" sep = true ->
  forallb pipe_line data = true ->
  ends_with (has_char "|") post = true ->
  nonempty (cells header) = true ->
  In d data ->
  qualifying d = true ->
  length (cells header) < length (cells d) ->
  MdToDocx.step (pre ++ header :: sep :: data ++ post) (length pre)
    = IndexError /\
  forall fuel doc,
    MdToDocx.scan (S fuel) (pre ++ header :: sep :: data ++ post)
                  (length pre) doc
    = Some IndexError.
Proof.
  intros Hh Hs Hsep Hdata Hpost Hcells Hin Hq Hwide.
  assert (Hstep :
    MdToDocx.step (pre ++ header :: sep :: data ++ post) (length pre)
    = IndexError).
  { pose proof (md_table_step pre header [sep] data post
                  (pipe_line_md_table_header _ Hh) Hsep
                  (forallb_pipe_line_md_data_line _ Hdata)
                  (ends_no_pipe_md _ Hpost)) as Hstep.
    cbn [app length] in Hstep. rewrite Hstep.
    rewrite Hcells, nonempty_map_filter.
    assert (Hex : existsb qualifying data = true)
      by (apply existsb_exists; now exists d).
    rewrite Hex. cbn [andb].
    destruct (forallb (not_wider header) (filter qualifying data)) eqn:Hfit;
      [|reflexivity].
    assert (Hd : not_wider header d = true).
    { apply (proj1 (forallb_forall _ _) Hfit). apply filter_In. now split. }
    unfold not_wider in Hd. apply Nat.leb_le in Hd. lia. }
  split; [exact Hstep|].
  intros fuel doc. cbn [MdToDocx.scan]. rewrite Hstep.
  destruct (Nat.leb_spec (length (pre ++ header :: sep :: data ++ post))
                         (length pre)) as [Hle|]; [|reflexivity].
  rewrite length_app in Hle. cbn [length] in Hle. lia.
Qed.

Lemma md_wide_row_raises_witness :
  MdToDocx.step ["| A | B |"; "|---|---|"; "| 1 | 2 | 3 |"] 0 = IndexError /\
  forall fuel doc,
    MdToDocx.scan (S fuel) ["| A | B |"; "|---|---|"; "| 1 | 2 | 3 |"] 0 doc
    = Some IndexError.
Proof.
  apply (md_wide_row_raises [] "| A | B |" "|---|---|" "| 1 | 2 | 3 |"
           ["| 1 | 2 | 3 |"] []); try reflexivity.
  - now left.
  - cbn. lia.
Defined.



(** X25.  In convert_md_to_docx.py the line that follows a table header
    is skipped as the separator whenever it holds three hyphens, be it a
    heading or a sentence: a step on the header that returns leaves the
    cursor beyond that line, so the line is never classified and the
    step emits nothing but at most a table. *)
Theorem md_hyphen_line_after_header_skipped (pre : list string)
    (header next_line : string) (rest : list string) :
  md_table_header header = true ->
  has_sub "---" next_line = true ->
  forall out n,
    MdToDocx.step (pre ++ header :: next_line :: rest) (length pre)
      = Ok (out, n) ->
    length pre + 2 <= n /\
    (forall c, In c out -> exists headers rows, c = Table headers rows).
Proof.
  intros Hh Hsep out n.
  unfold md_table_header in Hh. apply andb_true_iff in Hh as [Hp Hhead].
  apply negb_true_iff in Hhead. unfold heading_prefix in Hhead.
  repeat (apply orb_false_iff in Hhead as [Hhead ?]).
  unfold MdToDocx.step. rewrite nth_error_middle. unfold MdToDocx.classify.
  rewrite (truthy_strip_visible "|" eq_refl header Hp). cbn [negb].
  repeat match goal with H : startswith _ header = false |- _ =>
           rewrite H; clear H end.
  rewrite Hp. unfold MdToDocx.parse_table.
  rewrite nth_error_middle, Hp, nth_error_after. cbn [nth_error].
  rewrite Hsep, skipn_after.
  pose proof (md_parse_rows_ge rest [] (S (S (length pre)))) as Hge.
  destruct (MdToDocx.parse_rows rest [] (S (S (length pre)))) as [rows idx].
  cbn [snd] in Hge. unfold MdToDocx.add_table_to_doc.
  split_chain; intros [= <- <-]; (split; [lia|]);
    intros c Hc; cbn [In] in Hc;
    repeat match type of Hc with _ \/ _ => destruct Hc as [Hc|Hc] end;
    try contradiction; subst c; eauto.
Qed.

Lemma md_hyphen_line_after_header_skipped_witness :
  0 + 2 <= 2 /\
  (forall c, In c [] -> exists headers rows, c = Table headers rows).
Proof.
  apply (md_hyphen_line_after_header_skipped [] "| A | B |"
           "# Next --- section" ["after"] eq_refl eq_refl [] 2).
  reflexivity.
Defined.
